(** * Calendar tools of zero-calendar: availability, analytics, rescheduling

    A shallow embedding of [calendarTools] (the object literal exported by
    the AI tools module) and the properties of its free-slot scanner, its
    analytics fold and its reschedule advisor.

    Conventions of the embedding.
    - A JavaScript [Date] is its [getTime()] value: an integer number of
      milliseconds since the epoch, a [Z].  Date strings are taken as
      already parsed ([new Date(s)] of a valid ISO string), and
      [toISOString] followed by [new Date] is the identity at this
      precision.
    - Local wall-clock time is read in a zone with a fixed offset [tz]
      (milliseconds east of UTC); the date-fns helpers [startOfDay],
      [endOfDay], [addDays], [isSameDay], [format] and [Date.setHours]
      are modelled for such a zone.
    - Non-integer JavaScript numbers are exact rationals kept in lowest
      terms, together with the IEEE special values the code can produce
      (negative zero, the infinities, NaN).  The code computes in double
      precision: a property that needs a sum or a product to be exact
      says for which inputs it is ([exactlySummed]), and a property of a
      fractional [minDurationMinutes] is stated through its whole
      minutes, which rounding does not change.
    - [minDurationMinutes] is any number; a duration the code has floored
      is an integer.
    - A plain object used as a map is the list of its own entries in
      order of insertion.  A key that is a name inherited from
      [Object.prototype] is not read that way by the code
      ([inheritedNames]); the properties of [categoryCounts] exclude such
      keys.
    - Strings are sequences of 8-bit characters, and [toLowerCase] maps
      the letters A to Z only; the properties of the text search are for
      ASCII text.
    - An [async] function is a computation in the error monad
      [sum string]: [inl] is a rejected promise, [inr] a fulfilled one;
      [try]/[catch] is the monad's [catch].
    - The collaborators that are imported from other modules ([getEvents],
      [findAvailableTimeSlots]) are parameters of the tools. *)

From Stdlib Require Import ZArith QArith Qround List String Ascii Bool Lia.
From Stdlib Require Import Sorting.Sorted Sorting.Permutation.
From ExtLib Require Import Structures.Monad Structures.MonadExc.
From ExtLib Require Import Data.Monads.EitherMonad.
Import ListNotations.
Import MonadNotation.

Local Open Scope string_scope.
Local Open Scope list_scope.
Local Open Scope monad_scope.
Local Open Scope Z_scope.

(** ** Promises *)

Abbreviation promise := (sum string).

(** ** Events *)

Record Event : Type := mkEvent {
  id : string;
  title : option string;
  description : option string;
  location : option string;
  start : Z;
  end_ : Z;
  allDay : bool;
  categories : option (list string)
}.

(** The spec's invariant on an event; the TypeScript type does not
    enforce it. *)
Definition wellFormed (e : Event) : Prop := start e <= end_ e.

(** ** Time *)

Definition msPerMinute : Z := 1000 * 60.
Definition msPerHour : Z := 1000 * 60 * 60.
Definition msPerDay : Z := 1000 * 60 * 60 * 24.

(** date-fns [areIntervalsOverlapping] (version 3 and later): the end
    points of each interval are put in order, then compared strictly. *)
Definition areIntervalsOverlapping (left right : Z * Z) : bool :=
  let leftStartTime := Z.min (fst left) (snd left) in
  let leftEndTime := Z.max (fst left) (snd left) in
  let rightStartTime := Z.min (fst right) (snd right) in
  let rightEndTime := Z.max (fst right) (snd right) in
  (leftStartTime <? rightEndTime) && (rightStartTime <? leftEndTime).

(** The half-open overlap test of the spec. *)
Definition overlaps (a b : Z * Z) : Prop :=
  fst a < snd b /\ fst b < snd a.

(** ** Free slots *)

Record FreeSlot : Type := mkFreeSlot {
  slotStart : Z;
  slotEnd : Z;
  duration : Z;
  label : string
}.

Record FreeSlots : Type := mkFreeSlots {
  freeSlots : list FreeSlot;
  totalFreeSlots : Z;
  totalFreeDurationMinutes : Z
}.

(** [[...events].sort((a, b) => a.start - b.start)]: a stable sort on
    [start]. *)
Fixpoint insertByStart (e : Event) (l : list Event) : list Event :=
  match l with
  | [] => [e]
  | x :: r => if start e <=? start x then e :: x :: r
              else x :: insertByStart e r
  end.

Definition sortByStart (events : list Event) : list Event :=
  fold_right insertByStart [] events.

(** The [start]/[end] pair the gap loop reads off an entry of
    [augmentedEvents]. *)
Definition boundary (e : Event) : Z * Z := (start e, end_ e).

(** ** JavaScript numbers *)

(** A finite number is an exact rational in lowest terms; [Fin 0] is
    positive zero. *)
Inductive num : Type :=
| Fin (q : Q)
| NegZero
| PosInf
| NegInf
| NaN.

Definition Qltb (a b : Q) : bool :=
  match Qcompare a b with Lt => true | _ => false end.

Definition isNegative (x : num) : bool :=
  match x with
  | Fin q => Qltb q 0
  | NegZero | NegInf => true
  | PosInf | NaN => false
  end.

Definition isZero (x : num) : bool :=
  match x with
  | Fin q => Qeq_bool q 0
  | NegZero => true
  | _ => false
  end.

Definition isInfinite (x : num) : bool :=
  match x with
  | PosInf | NegInf => true
  | _ => false
  end.

Definition isNaN (x : num) : bool :=
  match x with
  | NaN => true
  | _ => false
  end.

Definition magnitude (x : num) : Q :=
  match x with
  | Fin q => q
  | _ => 0%Q
  end.

Definition signedZero (negative : bool) : num :=
  if negative then NegZero else Fin 0.

Definition signedInf (negative : bool) : num :=
  if negative then NegInf else PosInf.

(** The operator [/]. *)
Definition jsDiv (a b : num) : num :=
  if isNaN a || isNaN b then NaN
  else
    let negative := xorb (isNegative a) (isNegative b) in
    if isInfinite a then (if isInfinite b then NaN else signedInf negative)
    else if isInfinite b then signedZero negative
    else if isZero b then (if isZero a then NaN else signedInf negative)
    else if isZero a then signedZero negative
    else Fin (Qred (magnitude a / magnitude b)).

(** The operator [*]. *)
Definition jsMul (a b : num) : num :=
  if isNaN a || isNaN b then NaN
  else
    let negative := xorb (isNegative a) (isNegative b) in
    if isInfinite a then (if isZero b then NaN else signedInf negative)
    else if isInfinite b then (if isZero a then NaN else signedInf negative)
    else if isZero a || isZero b then signedZero negative
    else Fin (Qred (magnitude a * magnitude b)).

Definition ofZ (z : Z) : num := Fin (inject_Z z).

(** [Math.round]: to the nearest integer, ties towards positive infinity;
    a result of zero keeps the sign of the argument. *)
Definition mathRound (x : num) : num :=
  match x with
  | Fin q =>
      if Qltb q 0 && Qle_bool (- (1 # 2)) q then NegZero
      else ofZ (Qfloor (q + (1 # 2)))
  | other => other
  end.

(** [Math.ceil]. *)
Definition mathCeil (x : num) : num :=
  match x with
  | Fin q =>
      if Qltb q 0 && Qltb (- (1)) q then NegZero
      else ofZ (Qceiling q)
  | other => other
  end.

(** [Math.round((minutes / 60) * 10) / 10] *)
Definition toHours (minutes : num) : num :=
  jsDiv (mathRound (jsMul (jsDiv minutes (ofZ 60)) (ofZ 10))) (ofZ 10).

(** The operator [>=]; negative zero compares as zero. *)
Definition jsGe (a b : num) : bool :=
  match a, b with
  | NaN, _ | _, NaN => false
  | PosInf, _ | _, NegInf => true
  | NegInf, _ | _, PosInf => false
  | _, _ => Qle_bool (magnitude b) (magnitude a)
  end.

(** ** Decimal text, for [format] *)

Definition digit (d : Z) : ascii := ascii_of_N (Z.to_N (48 + d)).

Fixpoint digitsFrom (fuel : nat) (n : Z) (acc : string) : string :=
  match fuel with
  | O => acc
  | S f =>
      let acc' := String (digit (n mod 10)) acc in
      if n <? 10 then acc' else digitsFrom f (n / 10) acc'
  end.

(** The decimal numeral of a non-negative integer. *)
Definition decimal (n : Z) : string :=
  digitsFrom (S (Z.to_nat (Z.log2 n))) n "".

Fixpoint zeros (k : nat) : string :=
  match k with
  | O => ""
  | S k' => String "0" (zeros k')
  end.

Definition padStart (width : nat) (s : string) : string :=
  (zeros (width - String.length s) ++ s)%string.

Definition weekdayName (w : Z) : string :=
  match w with
  | 0 => "Sun" | 1 => "Mon" | 2 => "Tue" | 3 => "Wed"
  | 4 => "Thu" | 5 => "Fri" | _ => "Sat"
  end.

Definition monthName (m : Z) : string :=
  match m with
  | 1 => "Jan" | 2 => "Feb" | 3 => "Mar" | 4 => "Apr" | 5 => "May"
  | 6 => "Jun" | 7 => "Jul" | 8 => "Aug" | 9 => "Sep" | 10 => "Oct"
  | 11 => "Nov" | _ => "Dec"
  end.

(** Year, month and day of the proleptic Gregorian calendar for a day
    number counted from 1970-01-01. *)
Definition civilFromDays (z : Z) : Z * Z * Z :=
  let z := z + 719468 in
  let era := z / 146097 in
  let doe := z - era * 146097 in
  let yoe := (doe - doe / 1460 + doe / 36524 - doe / 146096) / 365 in
  let doy := doe - (365 * yoe + yoe / 4 - yoe / 100) in
  let mp := (5 * doy + 2) / 153 in
  let d := doy - (153 * mp + 2) / 5 + 1 in
  let m := if mp <? 10 then mp + 3 else mp - 9 in
  let y := yoe + era * 400 + (if m <=? 2 then 1 else 0) in
  (y, m, d).

Section LocalTime.

(** Offset of the local zone, in milliseconds. *)
Variable tz : Z.

Definition startOfDay (t : Z) : Z := t - (t + tz) mod msPerDay.
Definition endOfDay (t : Z) : Z := startOfDay t + (msPerDay - 1).
Definition addDays (t : Z) (n : Z) : Z := t + n * msPerDay.
(** [d.setHours(h, 0, 0, 0)] *)
Definition setHours (t : Z) (h : Z) : Z := startOfDay t + h * msPerHour.
Definition isSameDay (a b : Z) : bool := startOfDay a =? startOfDay b.

(** [format(d, "yyyy-MM-dd")] *)
Definition formatDateKey (t : Z) : string :=
  let '(y, m, d) := civilFromDays ((t + tz) / msPerDay) in
  let yearOfEra := if 0 <? y then y else 1 - y in
  (padStart 4 (decimal yearOfEra) ++ "-" ++ padStart 2 (decimal m)
     ++ "-" ++ padStart 2 (decimal d))%string.

(** [format(d, "h:mm a")] *)
Definition formatTime (t : Z) : string :=
  let msOfDay := (t + tz) mod msPerDay in
  let h := msOfDay / msPerHour in
  let mi := (msOfDay mod msPerHour) / msPerMinute in
  let h12 := if h mod 12 =? 0 then 12 else h mod 12 in
  (decimal h12 ++ ":" ++ padStart 2 (decimal mi) ++ " "
     ++ (if (h <? 12)%Z then "AM" else "PM"))%string.

(** [format(d, "EEE, MMM d, h:mm a")] *)
Definition formatDayTime (t : Z) : string :=
  let days := (t + tz) / msPerDay in
  let '(_, m, d) := civilFromDays days in
  (weekdayName ((days + 4) mod 7)%Z ++ ", " ++ monthName m ++ " "
     ++ decimal d ++ ", " ++ formatTime t)%string.

(** The object pushed onto [freeSlots] for the gap between the end of one
    entry and the start of the next. *)
Definition slotBetween (currentEventEnd nextEventStart : Z) : FreeSlot :=
  {| slotStart := currentEventEnd;
     slotEnd := nextEventStart;
     duration := (nextEventStart - currentEventEnd) / (1000 * 60);
     label := (formatDayTime currentEventEnd ++ " - "
                 ++ formatTime nextEventStart)%string |}.

(** The [for] loop over adjacent entries of [augmentedEvents]; the result
    is the list of slots it pushes, in order. *)
Fixpoint gapSlots (minDurationMinutes : num)
  (augmentedEvents : list (Z * Z)) : list FreeSlot :=
  match augmentedEvents with
  | current :: (next :: _) as rest =>
      let currentEventEnd := snd current in
      let nextEventStart := fst next in
      (if jsGe (ofZ (nextEventStart - currentEventEnd))
            (jsMul (jsMul minDurationMinutes (ofZ 60)) (ofZ 1000))
       then [slotBetween currentEventEnd nextEventStart] else [])
        ++ gapSlots minDurationMinutes rest
  | _ => []
  end.

(** The clipped working window of a day, or [None] when the loop body
    takes its [continue]. *)
Definition dayWindow (start_ end' currentDay : Z) : option (Z * Z) :=
  let dayStart := setHours currentDay 9 in
  let dayEnd := setHours currentDay 17 in
  if (dayEnd <? start_) || (dayStart >? end') then None
  else
    let effectiveDayStart := if dayStart <? start_ then start_ else dayStart in
    let effectiveDayEnd := if dayEnd >? end' then end' else dayEnd in
    Some (effectiveDayStart, effectiveDayEnd).

(** The slots one iteration of the [while] loop pushes. *)
Definition daySlots (start_ end' : Z) (minDurationMinutes : num)
  (sortedEvents : list Event) (currentDay : Z) : list FreeSlot :=
  match dayWindow start_ end' currentDay with
  | None => []
  | Some (effectiveDayStart, effectiveDayEnd) =>
      let dayEvents :=
        filter (fun event =>
                  areIntervalsOverlapping (effectiveDayStart, effectiveDayEnd)
                    (start event, end_ event)) sortedEvents in
      let augmentedEvents :=
        (effectiveDayStart, effectiveDayStart)
          :: map boundary dayEvents
          ++ [(effectiveDayEnd, effectiveDayEnd)] in
      gapSlots minDurationMinutes augmentedEvents
  end.

(** The [while (currentDay <= lastDay)] loop, threading [currentDay] and
    the growing [freeSlots].  [fuel] bounds the number of times the
    condition is tested; [None] means the bound was reached before the
    loop was left. *)
Fixpoint scanDays (fuel : nat) (start_ end' : Z) (minDurationMinutes : num)
  (sortedEvents : list Event) (lastDay currentDay : Z)
  (freeSlots : list FreeSlot) : option (list FreeSlot) :=
  match fuel with
  | O => None
  | S fuel' =>
      if currentDay <=? lastDay then
        scanDays fuel' start_ end' minDurationMinutes sortedEvents lastDay
          (addDays currentDay 1)
          (freeSlots
             ++ daySlots start_ end' minDurationMinutes sortedEvents currentDay)
      else Some freeSlots
  end.

(** Iterations the loop makes from [currentDay] up to [lastDay]. *)
Definition dayIterations (currentDay lastDay : Z) : nat :=
  Z.to_nat ((lastDay - currentDay) / msPerDay + 1).

(** The body of [findFreeTimeSlots] after the events are fetched.  The
    loop is given one test more than it has iterations, which lets it
    reach its exit ([scanDays_exit] below); the [None] branch is never
    taken. *)
Definition freeTimeSlotsIn (events : list Event)
  (start_ end' : Z) (minDurationMinutes : num) : FreeSlots :=
  let sortedEvents := sortByStart events in
  let currentDay := startOfDay start_ in
  let lastDay := endOfDay end' in
  let freeSlots :=
    match scanDays (S (dayIterations currentDay lastDay)) start_ end'
            minDurationMinutes sortedEvents lastDay currentDay [] with
    | Some pushed => pushed
    | None => []
    end in
  {| freeSlots := freeSlots;
     totalFreeSlots := Z.of_nat (List.length freeSlots);
     totalFreeDurationMinutes :=
       fold_left (fun total slot => total + duration slot) freeSlots 0 |}.

End LocalTime.

(** ** Records used as maps *)

(** A [Record<string, number>]: its own properties in insertion order.
    Keys are taken to be ordinary property names: not canonical array
    indices, which an object lists first, and not names inherited from
    [Object.prototype]. *)
Definition record (V : Type) : Type := list (string * V).

Fixpoint lookup {V} (key : string) (r : record V) : option V :=
  match r with
  | [] => None
  | (k, v) :: rest => if String.eqb key k then Some v else lookup key rest
  end.

(** [r[key] = v]: overwrite in place, or append a new property. *)
Fixpoint assign {V} (key : string) (v : V) (r : record V) : record V :=
  match r with
  | [] => [(key, v)]
  | (k, old) :: rest =>
      if String.eqb key k then (k, v) :: rest
      else (k, old) :: assign key v rest
  end.

(** [x || 0] on a property that holds a number or is absent. *)
Definition orZeroZ (x : option Z) : Z :=
  match x with Some v => v | None => 0 end.

Definition orZeroQ (x : option Q) : Q :=
  match x with Some v => v | None => 0%Q end.

(** ** Analytics *)

Record AnalyticsReport : Type := mkAnalyticsReport {
  totalMeetingMinutes : Q;
  totalMeetingHours : num;
  meetingCount : Z;
  averageMeetingLength : num;
  averageDailyMeetingMinutes : num;
  averageDailyMeetingHours : num;
  categoryCounts : record Z;
  busiestDay : string;
  busiestDayMinutes : Q;
  busiestDayHours : num;
  dailyMeetingMinutes : record Q
}.

(** The four variables the [events.forEach] callback updates. *)
Record Tally : Type := mkTally {
  tallyMinutes : Q;
  tallyCount : Z;
  tallyCategories : record Z;
  tallyDaily : record Q
}.

Definition emptyTally : Tally := mkTally 0 0 [] [].

(** [categoryCounts[category] = (categoryCounts[category] || 0) + 1], for
    a category that is not an inherited name. *)
Definition countCategory (counts : record Z) (category : string) : record Z :=
  assign category (orZeroZ (lookup category counts) + 1) counts.

(** [Math.ceil((end.getTime() - start.getTime()) / (1000 * 60 * 60 * 24))] *)
Definition dayCountOf (start_ end' : Z) : num :=
  mathCeil (jsDiv (ofZ (end' - start_)) (ofZ (1000 * 60 * 60 * 24))).

Section Analytics.

Variable tz : Z.

(** One call of the [events.forEach] callback. *)
Definition tallyEvent (t : Tally) (event : Event) : Tally :=
  let eventStart := start event in
  let eventEnd := end_ event in
  if allDay event then t
  else
    let durationMinutes := Qred (inject_Z (eventEnd - eventStart) / inject_Z (1000 * 60)) in
    let categoryCounts :=
      match categories event with
      | Some (c :: cs) => fold_left countCategory (c :: cs) (tallyCategories t)
      | _ => countCategory (tallyCategories t) "Uncategorized"
      end in
    let dateKey := formatDateKey tz eventStart in
    {| tallyMinutes := Qred (tallyMinutes t + durationMinutes);
       tallyCount := tallyCount t + 1;
       tallyCategories := categoryCounts;
       tallyDaily :=
         assign dateKey
           (Qred (orZeroQ (lookup dateKey (tallyDaily t)) + durationMinutes))
           (tallyDaily t) |}.

(** One call of the callback of [Object.entries(...).forEach]. *)
Definition busier (best : string * Q) (entry : string * Q) : string * Q :=
  let '(date, minutes) := entry in
  if Qltb (snd best) minutes then (date, minutes) else best.

(** The body of [getCalendarAnalytics] after the events are fetched. *)
Definition calendarAnalyticsOf (events : list Event) (start_ end' : Z)
  : AnalyticsReport :=
  let t := fold_left tallyEvent events emptyTally in
  let totalMeetingMinutes := tallyMinutes t in
  let meetingCount := tallyCount t in
  let dayCount := dayCountOf start_ end' in
  let averageDailyMeetingMinutes := jsDiv (Fin totalMeetingMinutes) dayCount in
  let '(busiestDay, busiestDayMinutes) :=
    fold_left busier (tallyDaily t) ("", 0%Q) in
  {| totalMeetingMinutes := totalMeetingMinutes;
     totalMeetingHours := toHours (Fin totalMeetingMinutes);
     meetingCount := meetingCount;
     averageMeetingLength :=
       if meetingCount >? 0
       then mathRound (jsDiv (Fin totalMeetingMinutes) (ofZ meetingCount))
       else Fin 0;
     averageDailyMeetingMinutes := mathRound averageDailyMeetingMinutes;
     averageDailyMeetingHours := toHours averageDailyMeetingMinutes;
     categoryCounts := tallyCategories t;
     busiestDay := busiestDay;
     busiestDayMinutes := busiestDayMinutes;
     busiestDayHours := toHours (Fin busiestDayMinutes);
     dailyMeetingMinutes := tallyDaily t |}.

End Analytics.

(** ** Text search *)

Definition lowerChar (c : ascii) : ascii :=
  let n := N_of_ascii c in
  if ((65 <=? n) && (n <=? 90))%N then ascii_of_N (n + 32) else c.

(** [s.toLowerCase()], on ASCII text. *)
Fixpoint toLowerCase (s : string) : string :=
  match s with
  | EmptyString => EmptyString
  | String c rest => String (lowerChar c) (toLowerCase rest)
  end.

(** [s.includes(sub)] *)
Definition includes (s sub : string) : bool :=
  match String.index 0 sub s with
  | Some _ => true
  | None => false
  end.

(** [field?.toLowerCase().includes(lowerQuery)], [undefined] being falsy. *)
Definition fieldMatches (field : option string) (lowerQuery : string) : bool :=
  match field with
  | Some text => includes (toLowerCase text) lowerQuery
  | None => false
  end.

(** ** Reschedule suggestions *)

Record EventSummary : Type := mkEventSummary {
  summaryId : string;
  summaryTitle : option string;
  summaryStart : Z;
  summaryEnd : Z;
  summaryDuration : Z
}.

Inductive Suggestion : Type :=
| NotFound (message : string)
| Alternatives (event : EventSummary) (alternativeSlots : list FreeSlot).

(** ** The tools *)

Section Tools.

Variable tz : Z.

(** [getEvents] of the calendar module: the event repository.  It is a
    function of its arguments, so the two fetches [suggestRescheduling]
    makes over one range see the same snapshot. *)
Variable getEvents : string -> Z -> Z -> promise (list Event).

(** [findAvailableTimeSlots] of the calendar utilities, and the type of
    what it yields. *)
Variable AvailableSlot : Type.
Variable findAvailableTimeSlots :
  string -> string -> Z -> promise (list AvailableSlot).

(** [now] is the value of [new Date()] on entry.  The [console.error] of
    the handler leaves no trace in the result. *)
Definition findEvents (now : Z) (userId query : string)
  : promise (list Event) :=
  catch
    (let thirtyDaysLater := addDays now 30 in
     events <- getEvents userId now thirtyDaysLater ;;
     let lowerQuery := toLowerCase query in
     ret (filter
            (fun event =>
               fieldMatches (title event) lowerQuery
               || fieldMatches (description event) lowerQuery
               || fieldMatches (location event) lowerQuery)
            events))
    (fun error => ret []).

Definition findOptimalMeetingTime (userId : string)
  (participantIds : list string) (durationMinutes : Z)
  (startDate endDate : string) : promise (list AvailableSlot) :=
  catch
    (findAvailableTimeSlots userId startDate durationMinutes)
    (fun error => ret []).

Definition getCalendarAnalytics (userId : string) (startDate endDate : Z)
  : promise AnalyticsReport :=
  let start_ := startDate in
  let end' := endDate in
  events <- getEvents userId start_ end' ;;
  ret (calendarAnalyticsOf tz events start_ end').

Definition findFreeTimeSlots (userId : string) (startDate endDate : Z)
  (minDurationMinutes : num) : promise FreeSlots :=
  let start_ := startDate in
  let end' := endDate in
  events <- getEvents userId start_ end' ;;
  ret (freeTimeSlotsIn tz events start_ end' minDurationMinutes).

Definition suggestRescheduling (now : Z) (userId eventId : string)
  : promise Suggestion :=
  let futureDate := addDays now 14 in
  events <- getEvents userId now futureDate ;;
  match find (fun event => String.eqb (id event) eventId) events with
  | None => ret (NotFound "Event not found")
  | Some eventToReschedule =>
      let eventStart := start eventToReschedule in
      let eventEnd := end_ eventToReschedule in
      let durationMinutes := (eventEnd - eventStart) / (1000 * 60) in
      result <- findFreeTimeSlots userId now futureDate (ofZ durationMinutes) ;;
      let alternativeSlots :=
        firstn 3
          (filter (fun slot => negb (isSameDay tz (slotStart slot) eventStart))
             (freeSlots result)) in
      ret (Alternatives
             {| summaryId := id eventToReschedule;
                summaryTitle := title eventToReschedule;
                summaryStart := start eventToReschedule;
                summaryEnd := end_ eventToReschedule;
                summaryDuration := durationMinutes |}
             alternativeSlots)
  end.

End Tools.

(** ** Rescheduling an event *)

(** [{ ...event, start: newStartTime, end: newEndTime }] *)
Definition withTimes (event : Event) (newStartTime newEndTime : Z) : Event :=
  {| id := id event;
     title := title event;
     description := description event;
     location := location event;
     start := newStartTime;
     end_ := newEndTime;
     allDay := allDay event;
     categories := categories event |}.

Section RescheduleEvent.

(** [getEvent] and [updateEvent] of the calendar module, and the type of
    what [updateEvent] yields.  [getEvent] yields [None] for the falsy
    answer it gives when there is no such event. *)
Variable Updated : Type.
Variable getEvent : string -> string -> promise (option Event).
Variable updateEvent : Event -> promise Updated.

(** The handler logs and throws the error again. *)
Definition rescheduleEvent (userId eventId : string)
  (newStartTime newEndTime : Z) : promise Updated :=
  catch
    (event <- getEvent userId eventId ;;
     match event with
     | None => raise (E := string) "Event not found"%string
     | Some event =>
         let updatedEvent := withTimes event newStartTime newEndTime in
         updateEvent updatedEvent
     end)
    (fun error => raise error).

End RescheduleEvent.

(** ** Signing in *)

(** A user as stored: the fields the sign-in code reads. *)
Record User : Type := mkUser {
  userId_ : string;
  userName : option string;
  userEmail : option string;
  userImage : option string;
  userPassword : option string
}.

(** What [authorize] hands to the session. *)
Record SessionUser : Type := mkSessionUser {
  sessionId : string;
  sessionName : option string;
  sessionEmail : option string
}.

(** The credentials of the sign-in form; a field may be missing. *)
Record Credentials : Type := mkCredentials {
  credEmail : option string;
  credPassword : option string
}.

(** A string that is present and not empty: a truthy [string | undefined]. *)
Definition truthyText (field : option string) : option string :=
  match field with
  | Some "" => None
  | other => other
  end.

Section SignIn.

(** [kv.get] and [kv.hgetall] of the key-value client, each with its
    answer for a key that is not there, and [bcrypt.compare]. *)
Variable kvGet : string -> promise (option string).
Variable kvHgetall : string -> promise (option User).
Variable bcryptCompare : string -> option string -> promise bool.

Definition getUserByEmail (email : string) : promise (option User) :=
  userId <- kvGet ("email:" ++ email)%string ;;
  match truthyText userId with
  | None => ret None
  | Some userId =>
      user <- kvHgetall ("user:" ++ userId)%string ;;
      ret (match user with
           | Some user =>
               Some {| userId_ := userId;
                       userName := userName user;
                       userEmail := userEmail user;
                       userImage := userImage user;
                       userPassword := userPassword user |}
           | None => None
           end)
  end.

Definition authorize (credentials : option Credentials)
  : promise (option SessionUser) :=
  match credentials with
  | None => ret None
  | Some credentials =>
      match truthyText (credEmail credentials),
            truthyText (credPassword credentials) with
      | Some email, Some password =>
          bind (m := sum string) (getUserByEmail email)
            (fun user : option User =>
               match user with
               | None => ret None
               | Some user =>
                   bind (m := sum string)
                     (bcryptCompare password (userPassword user))
                     (fun isPasswordValid : bool =>
                        if isPasswordValid
                        then ret (Some {| sessionId := userId_ user;
                                          sessionName := userName user;
                                          sessionEmail := userEmail user |})
                        else ret None)
               end)
      | _, _ => ret None
      end
  end.

End SignIn.

(** The values [currentDay] takes over [n] iterations of the loop. *)
Fixpoint daysFrom (n : nat) (currentDay : Z) : list Z :=
  match n with
  | O => []
  | S n' => currentDay :: daysFrom n' (addDays currentDay 1)
  end.

(** The calendar days [findFreeTimeSlots] iterates over. *)
Definition iteratedDays (tz start_ end' : Z) : list Z :=
  daysFrom (dayIterations (startOfDay tz start_) (endOfDay tz end'))
    (startOfDay tz start_).

(** The nine-to-five window of the day of [currentDay]. *)
Definition workWindow (tz currentDay : Z) : Z * Z :=
  (setHours tz currentDay 9, setHours tz currentDay 17).

(** A repository that answers every query with the same snapshot. *)
Definition snapshot (events : list Event)
  : string -> Z -> Z -> promise (list Event) :=
  fun _ _ _ => inr events.

(** ** Data for the examples *)

(** Midnight of 2024-01-15, a Monday, in UTC, and of the day after. *)
Definition jan15 : Z := 1705276800000.
Definition jan16 : Z := jan15 + msPerDay.

(** The instant [h]:[m] of the day that begins at [day]. *)
Definition at_ (day h m : Z) : Z := day + h * msPerHour + m * msPerMinute.

Definition plainEvent (i : string) (s e : Z) : Event :=
  mkEvent i None None None s e false None.

Definition meeting (i : string) (s e : Z) (cats : option (list string))
  : Event :=
  mkEvent i None None None s e false cats.

(** 09:00 to 12:00, and 10:00 to 10:30 inside it. *)
Definition longMeeting : Event :=
  plainEvent "long" (at_ jan15 9 0) (at_ jan15 12 0).
Definition shortMeeting : Event :=
  plainEvent "short" (at_ jan15 10 0) (at_ jan15 10 30).

(** 09:00:30 to 17:00: half a minute after the working day begins. *)
Definition lateStart : Event :=
  plainEvent "late" (at_ jan15 9 0 + 30 * 1000) (at_ jan15 17 0).

(** 09:00 to 09:30. *)
Definition standup : Event :=
  plainEvent "standup" (at_ jan15 9 0) (at_ jan15 9 30).

(** An event whose end, 08:00, precedes its start, 10:00. *)
Definition backwardsEvent : Event :=
  plainEvent "backwards" (at_ jan16 10 0) (at_ jan16 8 0).

(** An all-day event. *)
Definition holiday : Event :=
  mkEvent "holiday" (Some "Holiday") None None jan15 jan16 true None.

(** Meetings of 60, 30 and 31 minutes. *)
Definition workHour : Event :=
  meeting "work" (at_ jan15 9 0) (at_ jan15 10 0) (Some ["work"]).
Definition halfHour : Event :=
  meeting "half" (at_ jan15 11 0) (at_ jan15 11 30) None.
Definition halfHourAndOne : Event :=
  meeting "half1" (at_ jan15 11 0) (at_ jan15 11 31) None.

(** Collaborators that reject. *)
Definition brokenRepository : string -> Z -> Z -> promise (list Event) :=
  fun _ _ _ => inl "repository unavailable".
Definition brokenSlotFinder : string -> string -> Z -> promise (list FreeSlot) :=
  fun _ _ _ => inl "repository unavailable".

(** 18:00 to 19:00, after working hours; and 08:00 to 18:00, over the
    whole working day. *)
Definition eveningEvent : Event :=
  plainEvent "evening" (at_ jan15 18 0) (at_ jan15 19 0).
Definition bookedDay : Event :=
  plainEvent "booked" (at_ jan15 8 0) (at_ jan15 18 0).

(** An event with a title and a location, and one with no text at all. *)
Definition teamSync : Event :=
  mkEvent "sync" (Some "Team Sync") None (Some "Room 4")
    (at_ jan15 14 0) (at_ jan15 15 0) false (Some ["work"; "team"]).

(** A key-value store with one user, and a password check that accepts
    one password. *)
Definition ada : User :=
  mkUser "stale" (Some "Ada") (Some "ada@example.com") None (Some "hash").
Definition sampleGet (key : string) : promise (option string) :=
  inr (if String.eqb key "email:ada@example.com" then Some "user_1" else None).
Definition sampleHgetall (key : string) : promise (option User) :=
  inr (if String.eqb key "user:user_1" then Some ada else None).
Definition sampleCompare (password : string) (hash : option string)
  : promise bool :=
  inr (String.eqb password "secret").

(** A repository of single events that knows one event, and an update
    that answers with the event it is given. *)
Definition sampleGetEvent (userId eventId : string) : promise (option Event) :=
  inr (if String.eqb eventId "standup" then Some standup else None).
Definition sampleUpdate (event : Event) : promise Event := inr event.

(** ** Predicates of the specification *)

(** Events in ascending order of [start]. *)
Definition startsAscend (a b : Event) : Prop := start a <= start b.

(** Boundary pairs in ascending order of their first component. *)
Definition fstAscend (a b : Z * Z) : Prop := fst a <= fst b.

(** Slot [s] comes before slot [t]: it starts no later, and it ends no
    later than [t] starts. *)
Definition before (s t : FreeSlot) : Prop :=
  slotStart s <= slotStart t /\ slotEnd s <= slotStart t.

(** The interval a slot covers. *)
Definition slotInterval (s : FreeSlot) : Z * Z := (slotStart s, slotEnd s).

(** Slots in ascending order of start. *)
Definition startsAscending (slots : list FreeSlot) : Prop :=
  StronglySorted (fun s t => slotStart s <= slotStart t) slots.

(** A day count above zero, and one of zero or less. *)
Definition positive (x : num) : Prop :=
  match x with
  | Fin q => (0 < q)%Q
  | PosInf => True
  | _ => False
  end.

Definition nonPositive (x : num) : Prop :=
  match x with
  | Fin q => (q <= 0)%Q
  | NegZero | NegInf => True
  | _ => False
  end.

Definition isAllDay (e : Event) : Prop := allDay e = true.
Definition isMeeting (e : Event) : Prop := allDay e = false.

(** Event [a] is over by the time event [b] starts. *)
Definition endsBefore (a b : Event) : Prop := end_ a <= start b.

(** Boundary pairs laid end to end. *)
Definition sndBeforeFst (a b : Z * Z) : Prop := snd a <= fst b.

(** ** Quantities the reports are compared with *)

(** Sum of the values of a record of minutes. *)
Definition sumValues (r : record Q) : Q :=
  fold_right (fun entry acc => (snd entry + acc)%Q) 0%Q r.

(** The length of an event in minutes, as a rational. *)
Definition minutesOf (e : Event) : Q :=
  (inject_Z (end_ e - start e) / inject_Z (1000 * 60))%Q.

(** Total length of the events that are not all-day. *)
Definition meetingMinutes (events : list Event) : Q :=
  fold_right (fun e acc => if allDay e then acc else (minutesOf e + acc)%Q)
    0%Q events.

(** The labels an event is counted under: none for an all-day event, its
    categories when it has some, the fallback label otherwise. *)
Definition labelsOf (e : Event) : list string :=
  if allDay e then []
  else match categories e with
       | Some (c :: cs) => c :: cs
       | _ => ["Uncategorized"]
       end.

(** Total length of the counted events that start on the day with key
    [key]. *)
Definition minutesOn (tz : Z) (key : string) (events : list Event) : Q :=
  fold_right
    (fun e acc =>
       if negb (allDay e) && String.eqb (formatDateKey tz (start e)) key
       then (minutesOf e + acc)%Q else acc)
    0%Q events.

(** The counted events that start on the day with key [key]. *)
Definition meetingsOn (tz : Z) (key : string) (events : list Event)
  : list Event :=
  filter (fun e => negb (allDay e)
                   && String.eqb (formatDateKey tz (start e)) key) events.

(** The code adds the minutes in double precision, and the model as
    exact rationals.  The two agree when every counted event lasts a whole
    number of minutes and the minutes counted add up, sign apart, to no
    more than 2^53: every sum the loop forms is then an integer that a
    double holds exactly. *)
Definition wholeMinutes (e : Event) : Prop :=
  (end_ e - start e) mod (1000 * 60) = 0.

Definition countedMinutes (e : Event) : Z :=
  if allDay e then 0 else (end_ e - start e) / (1000 * 60).

Definition wholeMeetingMinutes (events : list Event) : Z :=
  fold_right (fun e total => countedMinutes e + total) 0 events.

Definition exactlySummed (events : list Event) : Prop :=
  Forall (fun e => allDay e = false -> wholeMinutes e) events
  /\ fold_right (fun e total => Z.abs (countedMinutes e) + total) 0 events
     <= 2 ^ 53.

(** The names every plain object inherits from [Object.prototype].  Read
    as a key of [categoryCounts], such a name yields the inherited value
    and not [undefined], so a category of that name is not counted the
    way the others are. *)
Definition inheritedNames : list string :=
  ["constructor"; "__proto__"; "hasOwnProperty"; "isPrototypeOf";
   "propertyIsEnumerable"; "toLocaleString"; "toString"; "valueOf";
   "__defineGetter__"; "__defineSetter__"; "__lookupGetter__";
   "__lookupSetter__"].

Definition plainLabel (label : string) : Prop :=
  existsb (String.eqb label) inheritedNames = false.

(** Text of ASCII characters only, on which [toLowerCase] above is the
    [toLowerCase] of the code. *)
Fixpoint isAscii (s : string) : bool :=
  match s with
  | EmptyString => true
  | String c rest => (N_of_ascii c <? 128)%N && isAscii rest
  end.

Definition asciiField (field : option string) : Prop :=
  match field with
  | Some text => isAscii text = true
  | None => True
  end.

Definition asciiEvent (e : Event) : Prop :=
  asciiField (title e) /\ asciiField (description e)
  /\ asciiField (location e).

(** A number that is neither NaN nor infinite. *)
Definition finite (x : num) : Prop :=
  isNaN x = false /\ isInfinite x = false.


(** Event [e] overlaps the clipped window of no iterated day. *)
Definition outsideEveryWindow (tz start_ end' : Z) (e : Event) : Prop :=
  forall d ws we,
    In d (iteratedDays tz start_ end') ->
    dayWindow tz start_ end' d = Some (ws, we) ->
    areIntervalsOverlapping (ws, we) (start e, end_ e) = false.

(** The number of the local calendar day an instant falls on. *)
Definition dayNumber (tz t : Z) : Z := (t + tz) / msPerDay.

(** [sub] occurs in [s]. *)
Definition occursIn (sub s : string) : Prop :=
  exists pre post, s = (pre ++ sub ++ post)%string.

(** The event has a title, a description or a location in which the
    query occurs, letter case apart. *)
Definition mentions (query : string) (event : Event) : Prop :=
  exists text,
    (title event = Some text \/ description event = Some text
     \/ location event = Some text)
    /\ occursIn (toLowerCase query) (toLowerCase text).

(** The test of the gap loop: a gap of [gap] milliseconds reaches the
    minimum duration. *)
Definition reaches (gap : Z) (minDurationMinutes : num) : bool :=
  jsGe (ofZ gap) (jsMul (jsMul minDurationMinutes (ofZ 60)) (ofZ 1000)).

(** A number that is zero or more. *)
Definition atLeastZero (x : num) : Prop :=
  match x with
  | Fin q => (0 <= q)%Q
  | NegZero | PosInf => True
  | _ => False
  end.

(** * Properties *)

(** ** Lists sorted under a relation *)

Section SortedLists.

Context {A : Type} (R : A -> A -> Prop).

Lemma StronglySorted_app (l1 l2 : list A) :
  StronglySorted R l1 -> StronglySorted R l2 ->
  (forall x y, In x l1 -> In y l2 -> R x y) ->
  StronglySorted R (l1 ++ l2).
Proof.
  induction l1 as [|a l1 IH]; intros S1 S2 Hx; simpl; [exact S2|].
  inversion S1 as [|? ? S1' Ha]; subst.
  constructor.
  - apply IH; auto. intros x y Hin Hy. apply Hx; [right|]; assumption.
  - apply Forall_app. split; [exact Ha|].
    apply Forall_forall. intros y Hy. apply Hx; [left; reflexivity|exact Hy].
Qed.

Lemma StronglySorted_filter (f : A -> bool) (l : list A) :
  StronglySorted R l -> StronglySorted R (filter f l).
Proof.
  induction 1 as [|a l Hs IH Ha]; simpl; [constructor|].
  destruct (f a); [|exact IH].
  constructor; [exact IH|].
  apply Forall_forall. intros x Hx. apply filter_In in Hx.
  rewrite Forall_forall in Ha. apply Ha, Hx.
Qed.

Lemma StronglySorted_firstn (n : nat) (l : list A) :
  StronglySorted R l -> StronglySorted R (firstn n l).
Proof.
  intros Hs. revert n.
  induction Hs as [|a l Hs IH Ha]; intros [|n]; simpl; try constructor.
  - apply IH.
  - apply Forall_forall. intros x Hx.
    rewrite Forall_forall in Ha. apply Ha.
    rewrite <- (firstn_skipn n l). apply in_or_app. left. exact Hx.
Qed.

End SortedLists.

(** ** Local time *)

Section TimeFacts.

Variable tz : Z.

Lemma startOfDay_le (t : Z) : startOfDay tz t <= t < startOfDay tz t + msPerDay.
Proof.
  unfold startOfDay, msPerDay.
  pose proof (Z.mod_pos_bound (t + tz) (1000 * 60 * 60 * 24) ltac:(lia)). lia.
Qed.

Lemma startOfDay_addDays (t n : Z) :
  startOfDay tz (addDays t n) = addDays (startOfDay tz t) n.
Proof.
  unfold startOfDay, addDays.
  replace (t + n * msPerDay + tz) with (t + tz + n * msPerDay) by lia.
  rewrite Z.mod_add by (unfold msPerDay; lia). lia.
Qed.

Lemma setHours_addDays (t n h : Z) :
  setHours tz (addDays t n) h = setHours tz t h + n * msPerDay.
Proof.
  unfold setHours. rewrite startOfDay_addDays. unfold addDays. lia.
Qed.

(** The working window of a day ends before the next day's begins. *)
Lemma workday_before_next (t : Z) :
  setHours tz t 9 < setHours tz t 17 <= setHours tz (addDays t 1) 9.
Proof.
  rewrite setHours_addDays. unfold setHours, msPerHour, msPerDay. lia.
Qed.

End TimeFacts.

(** ** Overlap *)

(** On proper intervals the library test is the half-open test of the
    spec. *)
Lemma areIntervalsOverlapping_proper (a b : Z * Z) :
  fst a <= snd a -> fst b <= snd b ->
  areIntervalsOverlapping a b = true <-> overlaps a b.
Proof.
  intros Ha Hb. unfold areIntervalsOverlapping, overlaps.
  rewrite andb_true_iff, !Z.ltb_lt. lia.
Qed.

Lemma areIntervalsOverlapping_sym (a b : Z * Z) :
  areIntervalsOverlapping a b = areIntervalsOverlapping b a.
Proof. unfold areIntervalsOverlapping. apply andb_comm. Qed.

(** Intervals that only touch do not overlap. *)
Lemma touching_do_not_overlap (a b c : Z) :
  a <= b -> b <= c -> areIntervalsOverlapping (a, b) (b, c) = false.
Proof.
  intros Hab Hbc. unfold areIntervalsOverlapping. simpl.
  apply andb_false_iff. right. apply Z.ltb_ge. lia.
Qed.

(** ** Sorting by start *)

Lemma insertByStart_In (e x : Event) (l : list Event) :
  In x (insertByStart e l) <-> x = e \/ In x l.
Proof.
  induction l as [|y l IH]; simpl.
  - intuition congruence.
  - destruct (start e <=? start y); simpl; [intuition congruence|].
    rewrite IH. intuition congruence.
Qed.

Lemma sortByStart_In (x : Event) (events : list Event) :
  In x (sortByStart events) <-> In x events.
Proof.
  induction events as [|e l IH]; simpl; [tauto|].
  rewrite insertByStart_In, IH. intuition congruence.
Qed.

Lemma insertByStart_sorted (e : Event) (l : list Event) :
  StronglySorted startsAscend l ->
  StronglySorted startsAscend (insertByStart e l).
Proof.
  induction 1 as [|y l Hs IH Hy]; simpl.
  - repeat constructor.
  - destruct (Z.leb_spec (start e) (start y)) as [Hle|Hgt].
    + constructor; [constructor; assumption|].
      constructor; [exact Hle|].
      eapply Forall_impl; [|exact Hy].
      unfold startsAscend. intros; lia.
    + constructor; [exact IH|].
      apply Forall_forall. intros x Hx.
      apply insertByStart_In in Hx. destruct Hx as [->|Hx].
      * unfold startsAscend; lia.
      * rewrite Forall_forall in Hy. apply Hy, Hx.
Qed.

Lemma sortByStart_sorted (events : list Event) :
  StronglySorted startsAscend (sortByStart events).
Proof.
  induction events as [|e l IH]; simpl; [constructor|].
  apply insertByStart_sorted, IH.
Qed.

Lemma sortByStart_Forall (P : Event -> Prop) (events : list Event) :
  Forall P events -> Forall P (sortByStart events).
Proof.
  rewrite !Forall_forall. intros H x Hx. apply H, sortByStart_In, Hx.
Qed.

Lemma boundaries_sorted (events : list Event) :
  StronglySorted startsAscend events ->
  StronglySorted fstAscend (map boundary events).
Proof.
  induction 1 as [|e l Hs IH He]; simpl; constructor; [exact IH|].
  apply Forall_forall. intros p Hp.
  apply in_map_iff in Hp. destruct Hp as (x & <- & Hx).
  rewrite Forall_forall in He. exact (He x Hx).
Qed.

Lemma boundaries_end_to_end (events : list Event) :
  StronglySorted endsBefore events ->
  StronglySorted sndBeforeFst (map boundary events).
Proof.
  induction 1 as [|e l Hs IH He]; simpl; constructor; [exact IH|].
  apply Forall_forall. intros p Hp.
  apply in_map_iff in Hp. destruct Hp as (x & <- & Hx).
  rewrite Forall_forall in He. exact (He x Hx).
Qed.

(** ** Reaching the minimum duration *)

Lemma Qltb_positive (q : Q) : (0 < q)%Q -> Qltb q 0 = false.
Proof.
  intros H. unfold Qltb.
  destruct (Qcompare_spec q 0) as [E|L|G]; try reflexivity.
  exfalso. exact (Qlt_irrefl 0 (Qlt_trans _ _ _ H L)).
Qed.

Lemma Qeq_bool_positive (q : Q) : (0 < q)%Q -> Qeq_bool q 0 = false.
Proof.
  intros H. destruct (Qeq_bool q 0) eqn:E; [|reflexivity].
  apply Qeq_bool_iff in E. rewrite E in H. now apply Qlt_irrefl in H.
Qed.

Lemma Qeq_bool_inject_Z (z : Z) : Qeq_bool (inject_Z z) 0 = (z =? 0).
Proof. unfold Qeq_bool. simpl. now rewrite Z.mul_1_r. Qed.

Lemma Qltb_zero (q : Q) : (q == 0)%Q -> Qltb q 0 = false.
Proof.
  intros H. unfold Qltb.
  destruct (Qcompare_spec q 0) as [_|L|_]; try reflexivity.
  rewrite H in L. now apply Qlt_irrefl in L.
Qed.

(** A finite number times a positive integer. *)
Lemma jsMul_Fin_ofZ (q : Q) (k : Z) :
  0 < k ->
  jsMul (Fin q) (ofZ k)
  = if Qeq_bool q 0 then signedZero (Qltb q 0)
    else Fin (Qred (q * inject_Z k)).
Proof.
  intros Hk. unfold jsMul, ofZ.
  cbn [isNaN isInfinite isZero isNegative magnitude orb].
  rewrite Qeq_bool_inject_Z.
  rewrite (Qltb_positive (inject_Z k)) by (unfold Qlt; simpl; lia).
  destruct (Z.eqb_spec k 0) as [->|_]; [lia|].
  rewrite orb_false_r, xorb_false_r. reflexivity.
Qed.

(** For a finite minimum the test compares the gap with the minimum in
    milliseconds. *)
Lemma reaches_Fin (gap : Z) (q : Q) :
  reaches gap (Fin q) = true <-> (q * 60 * 1000 <= inject_Z gap)%Q.
Proof.
  unfold reaches. rewrite jsMul_Fin_ofZ by lia.
  destruct (Qeq_bool q 0) eqn:Hq.
  - apply Qeq_bool_iff in Hq. rewrite (Qltb_zero q Hq).
    change (jsMul (signedZero false) (ofZ 1000)) with (Fin 0).
    unfold ofZ. cbn [jsGe magnitude].
    rewrite Qle_bool_iff, Hq. reflexivity.
  - rewrite jsMul_Fin_ofZ by lia.
    assert (Hne : Qeq_bool (Qred (q * inject_Z 60)) 0 = false).
    { destruct (Qeq_bool (Qred (q * inject_Z 60)) 0) eqn:E; [|reflexivity].
      apply Qeq_bool_iff in E. rewrite Qred_correct in E.
      apply Qeq_bool_neq in Hq. exfalso. apply Hq.
      apply Qmult_integral in E. destruct E as [E|E]; [exact E|discriminate]. }
    rewrite Hne. unfold ofZ. cbn [jsGe magnitude].
    rewrite Qle_bool_iff, !Qred_correct. reflexivity.
Qed.

Lemma reaches_ofZ (gap minutes : Z) :
  reaches gap (ofZ minutes) = true <-> minutes * 60 * 1000 <= gap.
Proof.
  unfold ofZ. rewrite reaches_Fin. unfold Qle. simpl. lia.
Qed.

Lemma reaches_NegZero (gap : Z) : reaches gap NegZero = true <-> 0 <= gap.
Proof.
  unfold reaches, jsMul, ofZ. cbn. unfold Qle_bool. simpl.
  rewrite Z.leb_le. lia.
Qed.

Lemma reaches_special (gap : Z) :
  reaches gap PosInf = false /\ reaches gap NaN = false
  /\ reaches gap NegInf = true.
Proof. repeat split. Qed.

(** A gap that reaches a minimum of zero or more is not negative, and one
    that reaches a positive minimum is positive. *)
Lemma reaches_atLeastZero (gap : Z) (m : num) :
  atLeastZero m -> reaches gap m = true -> 0 <= gap.
Proof.
  destruct m as [q| | | |]; simpl; try contradiction; intros Hm Hr.
  - apply reaches_Fin in Hr.
    assert (H0 : (0 <= inject_Z gap)%Q).
    { eapply Qle_trans; [|exact Hr].
      repeat apply Qmult_le_0_compat; try exact Hm; discriminate. }
    unfold Qle in H0. simpl in H0. lia.
  - now apply reaches_NegZero.
  - discriminate.
Qed.

Lemma reaches_positive (gap : Z) (m : num) :
  positive m -> reaches gap m = true -> 0 < gap.
Proof.
  destruct m as [q| | | |]; simpl; try contradiction; intros Hm Hr.
  - apply reaches_Fin in Hr.
    assert (H0 : (0 < inject_Z gap)%Q).
    { eapply Qlt_le_trans; [|exact Hr].
      repeat apply Qmult_lt_0_compat; try exact Hm; reflexivity. }
    unfold Qlt in H0. simpl in H0. lia.
  - discriminate.
Qed.

(** The whole minutes of a gap that reaches a finite minimum are at least
    the whole part of the minimum. *)
Lemma reaches_floor (gap : Z) (q : Q) :
  reaches gap (Fin q) = true -> Qfloor q <= gap / (1000 * 60).
Proof.
  intros Hr. apply reaches_Fin in Hr.
  change (gap / (1000 * 60)) with (Qfloor (gap # 60000)).
  apply Qfloor_resp_le.
  destruct q as [n d]. unfold Qle in *. simpl in *.
  rewrite ?Pos.mul_1_r in Hr. lia.
Qed.

Lemma reaches_floor_ms (gap : Z) (q : Q) :
  reaches gap (Fin q) = true -> Qfloor q * 60 * 1000 <= gap.
Proof.
  intros Hr. apply reaches_floor in Hr.
  pose proof (Z.mul_div_le gap (1000 * 60) ltac:(lia)) as Hdiv.
  nia.
Qed.

(** ** The gap loop *)

Section GapLoop.

Variable tz : Z.
Variable minDurationMinutes : num.

Let gaps := gapSlots tz minDurationMinutes.

Lemma gapSlots_step (a b : Z * Z) (rest : list (Z * Z)) :
  gaps (a :: b :: rest)
  = ((if reaches (fst b - snd a) minDurationMinutes
      then [slotBetween tz (snd a) (fst b)] else [])
       ++ gaps (b :: rest))%list.
Proof. reflexivity. Qed.

(** Every slot passed the test of the loop, and its [duration] is its
    length in whole minutes. *)
Lemma gapSlots_long (l : list (Z * Z)) (s : FreeSlot) :
  In s (gaps l) ->
  reaches (slotEnd s - slotStart s) minDurationMinutes = true
  /\ duration s = (slotEnd s - slotStart s) / (1000 * 60).
Proof.
  induction l as [|a [|b rest] IH]; try contradiction.
  rewrite gapSlots_step. intros Hin. apply in_app_or in Hin.
  destruct Hin as [Hin|Hin]; [|exact (IH Hin)].
  destruct (reaches (fst b - snd a) minDurationMinutes) eqn:Hr;
    [|contradiction].
  destruct Hin as [<-|[]]. simpl. split; [exact Hr|reflexivity].
Qed.

(** A slot starts at the end of an entry other than the last one. *)
Lemma gapSlots_start (l : list (Z * Z)) (y : Z * Z) (s : FreeSlot) :
  In s (gaps (l ++ [y])) -> exists c, In c l /\ slotStart s = snd c.
Proof.
  induction l as [|a l IH]; [contradiction|].
  assert (Hstep : exists b rest, l ++ [y] = b :: rest)
    by (destruct l; simpl; eauto).
  destruct Hstep as (b & rest & Hl).
  simpl app. rewrite Hl, gapSlots_step, <- Hl.
  intros Hin. apply in_app_or in Hin. destruct Hin as [Hin|Hin].
  - destruct (reaches _ _); [|contradiction].
    destruct Hin as [<-|[]]. exists a. split; [left|]; reflexivity.
  - destruct (IH Hin) as (c & Hc & Hs). exists c. split; [right|]; assumption.
Qed.

(** A slot ends at the start of an entry other than the first one. *)
Lemma gapSlots_end (x : Z * Z) (l : list (Z * Z)) (s : FreeSlot) :
  In s (gaps (x :: l)) -> exists c, In c l /\ slotEnd s = fst c.
Proof.
  revert x. induction l as [|b rest IH]; intros x; [contradiction|].
  rewrite gapSlots_step. intros Hin. apply in_app_or in Hin.
  destruct Hin as [Hin|Hin].
  - destruct (reaches _ _); [|contradiction].
    destruct Hin as [<-|[]]. exists b. split; [left|]; reflexivity.
  - destruct (IH _ Hin) as (c & Hc & Hs). exists c. split; [right|]; assumption.
Qed.

(** Between sorted, well-formed entries the slots come out in order,
    whatever the two sentinels are. *)
Lemma gapSlots_sorted (x y : Z * Z) (mid : list (Z * Z)) :
  atLeastZero minDurationMinutes ->
  StronglySorted fstAscend mid ->
  Forall (fun c => fst c <= snd c) mid ->
  StronglySorted before (gaps (x :: mid ++ [y])).
Proof.
  intros Hm Hs. revert x.
  induction Hs as [|b mid Hs IH Hb]; intros x Hwf.
  - simpl app. rewrite gapSlots_step. cbn [gaps gapSlots].
    destruct (reaches _ _); repeat constructor.
  - inversion Hwf as [|? ? Hb_wf Hwf']; subst.
    simpl app. rewrite gapSlots_step.
    apply StronglySorted_app.
    + destruct (reaches _ _); repeat constructor.
    + apply IH, Hwf'.
    + intros s t Hs_in Ht_in.
      destruct (reaches (fst b - snd x) minDurationMinutes) eqn:Hr;
        [|contradiction].
      apply (reaches_atLeastZero _ _ Hm) in Hr.
      destruct Hs_in as [<-|[]].
      change (b :: mid ++ [y]) with ((b :: mid) ++ [y]) in Ht_in.
      apply gapSlots_start in Ht_in. destruct Ht_in as (c & Hc & Hst).
      assert (Hbc : fst b <= fst c /\ fst c <= snd c).
      { destruct Hc as [<-|Hc]; [lia|].
        rewrite Forall_forall in Hb, Hwf'.
        split; [exact (Hb c Hc)|exact (Hwf' c Hc)]. }
      unfold before. rewrite Hst. simpl. lia.
Qed.

(** Between entries laid end to end, a slot lies after or before each
    of them. *)
Lemma gapSlots_clear (x y : Z * Z) (mid : list (Z * Z)) :
  StronglySorted sndBeforeFst mid ->
  Forall (fun c => fst c <= snd c) mid ->
  forall s c, In s (gaps (x :: mid ++ [y])) -> In c mid ->
    snd c <= slotStart s \/ slotEnd s <= fst c.
Proof.
  intros Hs. revert x.
  induction Hs as [|b mid Hs IH Hb]; intros x Hwf s c Hin Hc;
    [contradiction|].
  inversion Hwf as [|? ? Hb_wf Hwf']; subst.
  rewrite Forall_forall in Hb, Hwf'. unfold sndBeforeFst in Hb.
  simpl app in Hin. rewrite gapSlots_step in Hin.
  apply in_app_or in Hin. destruct Hin as [Hin|Hin].
  - destruct (reaches _ _); [|contradiction].
    destruct Hin as [<-|[]]. right. simpl.
    destruct Hc as [<-|Hc]; [lia|]. specialize (Hb c Hc). lia.
  - destruct Hc as [<-|Hc].
    + left.
      change (b :: mid ++ [y]) with ((b :: mid) ++ [y]) in Hin.
      apply gapSlots_start in Hin. destruct Hin as (c' & Hc' & ->).
      destruct Hc' as [<-|Hc']; [lia|].
      specialize (Hb c' Hc'). specialize (Hwf' c' Hc'). simpl in *. lia.
    + apply (IH b); [apply Forall_forall; exact Hwf'|exact Hin|exact Hc].
Qed.

(** When every entry straddles one instant, no gap reaches a positive
    threshold. *)
Lemma gapSlots_pinched (p : Z) (l : list (Z * Z)) :
  positive minDurationMinutes ->
  Forall (fun c => fst c <= p <= snd c) l ->
  gaps l = [].
Proof.
  intros Hm. induction l as [|a [|b rest] IH]; intros Hl; try reflexivity.
  inversion Hl as [|? ? Ha Hl']; subst.
  inversion Hl' as [|? ? Hb _]; subst.
  rewrite gapSlots_step, (IH Hl').
  destruct (reaches (fst b - snd a) minDurationMinutes) eqn:Hr;
    [|reflexivity].
  apply (reaches_positive _ _ Hm) in Hr. lia.
Qed.

End GapLoop.

(** ** One day of the scan *)

Section DayScan.

Variables tz start_ end' : Z.

Lemma dayWindow_skipped (currentDay : Z) :
  setHours tz currentDay 17 < start_ \/ end' < setHours tz currentDay 9 ->
  dayWindow tz start_ end' currentDay = None.
Proof.
  intros H. unfold dayWindow.
  destruct (Z.ltb_spec (setHours tz currentDay 17) start_);
    destruct (Z.gtb_spec (setHours tz currentDay 9) end'); simpl;
    try reflexivity; lia.
Qed.

(** The clipped window lies inside the working hours of its day, and is a
    proper interval when the range is. *)
Lemma dayWindow_inside (currentDay ws we : Z) :
  dayWindow tz start_ end' currentDay = Some (ws, we) ->
  setHours tz currentDay 9 <= Z.min ws we
  /\ Z.max ws we <= setHours tz currentDay 17
  /\ (start_ <= end' -> ws <= we)
  /\ ws = Z.max (setHours tz currentDay 9) start_
  /\ we = Z.min (setHours tz currentDay 17) end'.
Proof.
  pose proof (workday_before_next tz currentDay) as Hday.
  unfold dayWindow.
  destruct (Z.ltb_spec (setHours tz currentDay 17) start_);
    destruct (Z.gtb_spec (setHours tz currentDay 9) end'); simpl;
    try discriminate.
  destruct (Z.ltb_spec (setHours tz currentDay 9) start_);
    destruct (Z.gtb_spec (setHours tz currentDay 17) end');
    intros [= <- <-]; lia.
Qed.

Lemma overlapping_wellFormed (ws we : Z) (e : Event) :
  wellFormed e ->
  areIntervalsOverlapping (ws, we) (start e, end_ e) = true ->
  Z.min ws we < end_ e /\ start e < Z.max ws we.
Proof.
  unfold wellFormed, areIntervalsOverlapping. simpl. intros Hwf H.
  apply andb_true_iff in H. destruct H as [H1 H2].
  apply Z.ltb_lt in H1, H2. lia.
Qed.

Variable minDurationMinutes : num.
Variable sortedEvents : list Event.

Let slotsOf := daySlots tz start_ end' minDurationMinutes sortedEvents.

Lemma daySlots_skipped (currentDay : Z) :
  setHours tz currentDay 17 < start_ \/ end' < setHours tz currentDay 9 ->
  slotsOf currentDay = [].
Proof.
  intros H. unfold slotsOf, daySlots. rewrite dayWindow_skipped by exact H.
  reflexivity.
Qed.

Lemma daySlots_long (currentDay : Z) (s : FreeSlot) :
  In s (slotsOf currentDay) ->
  reaches (slotEnd s - slotStart s) minDurationMinutes = true
  /\ duration s = (slotEnd s - slotStart s) / (1000 * 60).
Proof.
  unfold slotsOf, daySlots.
  destruct (dayWindow tz start_ end' currentDay) as [[ws we]|];
    [|contradiction].
  apply gapSlots_long.
Qed.

Hypothesis sortedEvents_wellFormed : Forall wellFormed sortedEvents.

(** With well-formed events, the slots of a day start and end within its
    working hours. *)
Lemma daySlots_inside (currentDay : Z) (s : FreeSlot) :
  In s (slotsOf currentDay) ->
  setHours tz currentDay 9 <= slotStart s
  /\ slotEnd s <= setHours tz currentDay 17.
Proof.
  unfold slotsOf, daySlots.
  destruct (dayWindow tz start_ end' currentDay) as [[ws we]|] eqn:Hw;
    [|contradiction].
  apply dayWindow_inside in Hw. destruct Hw as (Hlo & Hhi & _).
  set (dayEvents := filter _ sortedEvents).
  assert (Hday : forall e, In e dayEvents ->
            Z.min ws we < end_ e /\ start e < Z.max ws we).
  { intros e He. apply filter_In in He. destruct He as [He Hov].
    rewrite Forall_forall in sortedEvents_wellFormed.
    apply overlapping_wellFormed; auto. }
  intros Hin. split.
  - change ((ws, ws) :: map boundary dayEvents ++ [(we, we)])
      with (((ws, ws) :: map boundary dayEvents) ++ [(we, we)]) in Hin.
    apply gapSlots_start in Hin. destruct Hin as (c & [<-|Hc] & ->).
    + simpl. lia.
    + apply in_map_iff in Hc. destruct Hc as (e & <- & He).
      specialize (Hday e He). simpl. lia.
  - apply gapSlots_end in Hin. destruct Hin as (c & Hc & ->).
    apply in_app_or in Hc. destruct Hc as [Hc|[<-|[]]].
    + apply in_map_iff in Hc. destruct Hc as (e & <- & He).
      specialize (Hday e He). simpl. lia.
    + simpl. lia.
Qed.

(** With a proper range as well, they lie within the clipped window, so
    that an event left out by the filter is clear of them. *)
Lemma daySlots_clear_of_others (currentDay : Z) (s : FreeSlot) (e : Event) :
  start_ <= end' ->
  In s (slotsOf currentDay) ->
  In e sortedEvents ->
  (forall ws we, dayWindow tz start_ end' currentDay = Some (ws, we) ->
     areIntervalsOverlapping (ws, we) (start e, end_ e) = false) ->
  ~ overlaps (slotInterval s) (boundary e).
Proof.
  intros Hrange. unfold slotsOf, daySlots.
  destruct (dayWindow tz start_ end' currentDay) as [[ws we]|] eqn:Hw;
    [|contradiction].
  intros Hin He Hout. specialize (Hout ws we eq_refl).
  apply dayWindow_inside in Hw. destruct Hw as (_ & _ & Hproper & _).
  specialize (Hproper Hrange).
  rewrite Forall_forall in sortedEvents_wellFormed.
  pose proof (sortedEvents_wellFormed e He) as Hwf_e. unfold wellFormed in Hwf_e.
  set (dayEvents := filter _ sortedEvents) in Hin.
  assert (Hday : forall e', In e' dayEvents ->
            Z.min ws we < end_ e' /\ start e' < Z.max ws we).
  { intros e' He'. apply filter_In in He'. destruct He' as [He' Hov].
    apply overlapping_wellFormed; auto. }
  assert (Hs_lo : ws <= slotStart s).
  { change ((ws, ws) :: map boundary dayEvents ++ [(we, we)])
      with (((ws, ws) :: map boundary dayEvents) ++ [(we, we)]) in Hin.
    apply gapSlots_start in Hin. destruct Hin as (c & [<-|Hc] & ->).
    - simpl. lia.
    - apply in_map_iff in Hc. destruct Hc as (e' & <- & He').
      specialize (Hday e' He'). simpl. lia. }
  assert (Hs_hi : slotEnd s <= we).
  { apply gapSlots_end in Hin. destruct Hin as (c & Hc & ->).
    apply in_app_or in Hc. destruct Hc as [Hc|[<-|[]]].
    - apply in_map_iff in Hc. destruct Hc as (e' & <- & He').
      specialize (Hday e' He'). simpl. lia.
    - simpl. lia. }
  unfold areIntervalsOverlapping in Hout. simpl in Hout.
  apply andb_false_iff in Hout. rewrite !Z.ltb_ge in Hout.
  unfold overlaps, slotInterval, boundary. simpl. lia.
Qed.

(** Events laid end to end are clear of every slot of the day. *)
Lemma daySlots_clear (currentDay : Z) (s : FreeSlot) (e : Event) :
  start_ <= end' ->
  StronglySorted endsBefore sortedEvents ->
  In s (slotsOf currentDay) ->
  In e sortedEvents ->
  ~ overlaps (slotInterval s) (boundary e).
Proof.
  intros Hrange Hchain Hin He.
  destruct (dayWindow tz start_ end' currentDay) as [[ws we]|] eqn:Hw.
  - destruct (areIntervalsOverlapping (ws, we) (start e, end_ e)) eqn:Hov.
    + unfold slotsOf, daySlots in Hin. rewrite Hw in Hin.
      assert (Hc : In (boundary e)
                (map boundary
                   (filter (fun event =>
                              areIntervalsOverlapping (ws, we)
                                (start event, end_ event)) sortedEvents))).
      { apply in_map, filter_In. split; assumption. }
      eapply gapSlots_clear in Hin; [| | |exact Hc].
      * unfold overlaps, slotInterval. simpl in *. lia.
      * apply boundaries_end_to_end, StronglySorted_filter, Hchain.
      * apply Forall_forall. intros c Hc'.
        apply in_map_iff in Hc'. destruct Hc' as (e' & <- & He').
        apply filter_In in He'. destruct He' as [He' _].
        rewrite Forall_forall in sortedEvents_wellFormed.
        exact (sortedEvents_wellFormed e' He').
    + apply (daySlots_clear_of_others currentDay); try assumption.
      intros ws' we' Hw'. rewrite Hw in Hw'. now injection Hw' as <- <-.
  - unfold slotsOf, daySlots in Hin. now rewrite Hw in Hin.
Qed.

Hypothesis sortedEvents_sorted : StronglySorted startsAscend sortedEvents.
Hypothesis minDuration_nonneg : atLeastZero minDurationMinutes.

Lemma daySlots_sorted (currentDay : Z) :
  StronglySorted before (slotsOf currentDay).
Proof.
  unfold slotsOf, daySlots.
  destruct (dayWindow tz start_ end' currentDay) as [[ws we]|];
    [|constructor].
  apply gapSlots_sorted; [assumption| |].
  - apply boundaries_sorted, StronglySorted_filter, sortedEvents_sorted.
  - apply Forall_forall. intros c Hc.
    apply in_map_iff in Hc. destruct Hc as (e & <- & He).
    apply filter_In in He. destruct He as [He _].
    rewrite Forall_forall in sortedEvents_wellFormed.
    exact (sortedEvents_wellFormed e He).
Qed.

(** The slots of [n] consecutive days are in order. *)
Lemma days_sorted (n : nat) (currentDay : Z) :
  StronglySorted before (flat_map slotsOf (daysFrom n currentDay))
  /\ Forall (fun s => setHours tz currentDay 9 <= slotStart s)
       (flat_map slotsOf (daysFrom n currentDay)).
Proof.
  revert currentDay. induction n as [|n IH]; intros currentDay; simpl.
  - split; constructor.
  - destruct (IH (addDays currentDay 1)) as [IHs IHb].
    pose proof (workday_before_next tz currentDay) as Hnext.
    rewrite Forall_forall in IHb.
    split.
    + apply StronglySorted_app; [apply daySlots_sorted|exact IHs|].
      intros s t Hs Ht.
      pose proof (daySlots_long _ _ Hs) as [Hlen _].
      apply (reaches_atLeastZero _ _ minDuration_nonneg) in Hlen.
      apply daySlots_inside in Hs. specialize (IHb t Ht).
      unfold before. lia.
    + apply Forall_app. split; apply Forall_forall; intros s Hs.
      * apply daySlots_inside in Hs. lia.
      * specialize (IHb s Hs). lia.
Qed.

End DayScan.

(** ** The loop over days *)

Section DayLoop.

Variables tz start_ end' : Z.
Variable minDurationMinutes : num.
Variable sortedEvents : list Event.
Variable lastDay : Z.

Let slotsOf := daySlots tz start_ end' minDurationMinutes sortedEvents.
Let scan (fuel : nat) :=
  scanDays tz fuel start_ end' minDurationMinutes sortedEvents lastDay.

Lemma dayIterations_stop (currentDay : Z) :
  lastDay < currentDay -> dayIterations currentDay lastDay = O.
Proof.
  intros H. unfold dayIterations.
  assert ((lastDay - currentDay) / msPerDay < 0)
    by (apply Z.div_lt_upper_bound; unfold msPerDay; lia).
  lia.
Qed.

Lemma dayIterations_step (currentDay : Z) :
  currentDay <= lastDay ->
  dayIterations currentDay lastDay
  = S (dayIterations (addDays currentDay 1) lastDay).
Proof.
  intros H. unfold dayIterations, addDays.
  replace (lastDay - (currentDay + 1 * msPerDay))
    with (lastDay - currentDay + (-1) * msPerDay) by lia.
  rewrite Z.div_add by (unfold msPerDay; lia).
  assert (0 <= (lastDay - currentDay) / msPerDay)
    by (apply Z.div_pos; unfold msPerDay; lia).
  lia.
Qed.

(** With more fuel than [dayIterations] the loop is left through its
    condition, and what it has pushed by then is the slots of the days
    visited, in order. *)
Lemma scanDays_exit (fuel : nat) (currentDay : Z) (acc : list FreeSlot) :
  (dayIterations currentDay lastDay < fuel)%nat ->
  scan fuel currentDay acc
  = Some (acc ++ flat_map slotsOf
                   (daysFrom (dayIterations currentDay lastDay) currentDay)).
Proof.
  revert currentDay acc.
  induction fuel as [|fuel IH]; intros currentDay acc Hfuel; [lia|].
  unfold scan. simpl.
  destruct (Z.leb_spec currentDay lastDay) as [Hle|Hgt].
  - rewrite dayIterations_step in * by exact Hle.
    fold (scan fuel). rewrite IH by lia.
    simpl. now rewrite <- app_assoc.
  - rewrite dayIterations_stop by exact Hgt.
    simpl. now rewrite app_nil_r.
Qed.

(** The days visited are those up to [lastDay], and the day after the
    last of them is beyond it. *)
Lemma daysFrom_upto (currentDay : Z) :
  Forall (fun d => d <= lastDay)
    (daysFrom (dayIterations currentDay lastDay) currentDay)
  /\ lastDay
     < addDays currentDay (Z.of_nat (dayIterations currentDay lastDay)).
Proof.
  remember (dayIterations currentDay lastDay) as n eqn:Hn.
  revert currentDay Hn. induction n as [|n IH]; intros currentDay Hn.
  - split; [constructor|].
    destruct (Z.leb_spec currentDay lastDay) as [Hle|Hgt].
    + rewrite dayIterations_step in Hn by exact Hle. discriminate.
    + unfold addDays. simpl. lia.
  - destruct (Z.leb_spec currentDay lastDay) as [Hle|Hgt].
    + rewrite dayIterations_step in Hn by exact Hle.
      injection Hn as Hn. destruct (IH _ Hn) as [IHd IHl].
      split; [constructor; assumption|].
      unfold addDays in *. lia.
    + rewrite dayIterations_stop in Hn by exact Hgt. discriminate.
Qed.

End DayLoop.

(** The returned list is the slots of the iterated days, day by day. *)
Lemma freeSlots_by_day (tz : Z) (events : list Event)
  (start_ end' : Z) (minDurationMinutes : num) :
  freeSlots (freeTimeSlotsIn tz events start_ end' minDurationMinutes)
  = flat_map (daySlots tz start_ end' minDurationMinutes (sortByStart events))
      (iteratedDays tz start_ end').
Proof.
  unfold freeTimeSlotsIn, iteratedDays. cbn [freeSlots].
  now rewrite scanDays_exit by apply Nat.lt_succ_diag_r.
Qed.

(** More fuel changes nothing. *)
Lemma scanDays_fuel (tz : Z) (fuel : nat) (events : list Event)
  (start_ end' : Z) (minDurationMinutes : num) (lastDay currentDay : Z) :
  (dayIterations currentDay lastDay < fuel)%nat ->
  scanDays tz fuel start_ end' minDurationMinutes events lastDay currentDay []
  = scanDays tz (S (dayIterations currentDay lastDay)) start_ end'
      minDurationMinutes events lastDay currentDay [].
Proof.
  intros H.
  rewrite !scanDays_exit; [reflexivity|apply Nat.lt_succ_diag_r|exact H].
Qed.

(** ** findFreeTimeSlots *)

Lemma freeTimeSlotsIn_sorted (tz : Z) (events : list Event)
  (start_ end' : Z) (minDurationMinutes : num) :
  Forall wellFormed events ->
  atLeastZero minDurationMinutes ->
  StronglySorted before
    (freeSlots (freeTimeSlotsIn tz events start_ end' minDurationMinutes)).
Proof.
  intros Hwf Hm. rewrite freeSlots_by_day.
  apply days_sorted;
    [apply sortByStart_Forall, Hwf|apply sortByStart_sorted|exact Hm].
Qed.

Lemma In_firstn {A} (n : nat) (l : list A) (x : A) :
  In x (firstn n l) -> In x l.
Proof.
  intros H. rewrite <- (firstn_skipn n l). apply in_or_app. now left.
Qed.

Lemma StronglySorted_head {A} (R : A -> A -> Prop) (a b : A) (l : list A) :
  StronglySorted R (a :: b :: l) -> R a b.
Proof.
  intros H. inversion H as [|? ? _ Hall]; subst.
  inversion Hall; assumption.
Qed.

Lemma StronglySorted_tail {A} (R : A -> A -> Prop) (a : A) (l : list A) :
  StronglySorted R (a :: l) -> StronglySorted R l.
Proof. intros H. inversion H; assumption. Qed.

Lemma before_startsAscending (slots : list FreeSlot) :
  StronglySorted before slots -> startsAscending slots.
Proof.
  induction 1 as [|s l Hs IH Ha]; constructor; [exact IH|].
  eapply Forall_impl; [|exact Ha]. intros t [Ht _]. exact Ht.
Qed.

(** When the events, taken in order of start, are laid end to end and
    the range is proper, every slot returned is clear of every event. *)
Lemma freeTimeSlotsIn_clear (tz : Z) (events : list Event)
  (start_ end' : Z) (minDurationMinutes : num) :
  start_ <= end' ->
  Forall wellFormed events ->
  StronglySorted endsBefore (sortByStart events) ->
  forall slot e,
    In slot (freeSlots
               (freeTimeSlotsIn tz events start_ end' minDurationMinutes)) ->
    In e events ->
    ~ overlaps (slotInterval slot) (boundary e).
Proof.
  intros Hrange Hwf Hchain slot e Hin He.
  rewrite freeSlots_by_day in Hin.
  apply in_flat_map in Hin. destruct Hin as (d & _ & Hin).
  apply (daySlots_clear tz start_ end' minDurationMinutes (sortByStart events)
           (sortByStart_Forall _ _ Hwf) d slot e Hrange Hchain Hin).
  apply sortByStart_In, He.
Qed.

Section FreeTimeSlots.

Variable tz : Z.
Variable getEvents : string -> Z -> Z -> promise (list Event).
Variables (userId : string) (startDate endDate : Z).
Variable minDurationMinutes : num.
Variable events : list Event.

Hypothesis fetched : getEvents userId startDate endDate = inr events.

Lemma findFreeTimeSlots_fetched :
  findFreeTimeSlots tz getEvents userId startDate endDate minDurationMinutes
  = inr (freeTimeSlotsIn tz events startDate endDate minDurationMinutes).
Proof. unfold findFreeTimeSlots. rewrite fetched. reflexivity. Qed.

(** C7, amended.  With a minimum duration of zero or more, no slot
    returned runs backwards, and the minimum was not infinite if a slot
    is returned; every slot is at least as long as the whole minutes of
    the minimum, and so is its [duration] field; when the minimum is a
    whole number of minutes, the slot and its [duration] are at least
    the minimum itself. *)
Theorem findFreeTimeSlots_min_duration :
  atLeastZero minDurationMinutes ->
  exists result,
    findFreeTimeSlots tz getEvents userId startDate endDate
      minDurationMinutes = inr result
    /\ Forall (fun slot =>
                 0 <= slotEnd slot - slotStart slot
                 /\ 0 <= duration slot
                 /\ minDurationMinutes <> PosInf
                 /\ forall q,
                      minDurationMinutes = Fin q ->
                      Qfloor q * 60 * 1000 <= slotEnd slot - slotStart slot
                      /\ Qfloor q <= duration slot
                      /\ forall minutes,
                           (q == inject_Z minutes)%Q ->
                           minutes * 60 * 1000
                           <= slotEnd slot - slotStart slot
                           /\ minutes <= duration slot)
         (freeSlots result).
Proof.
  intros Hm. eexists. split; [apply findFreeTimeSlots_fetched|].
  rewrite freeSlots_by_day. apply Forall_forall. intros s Hs.
  apply in_flat_map in Hs. destruct Hs as (d & _ & Hs).
  apply daySlots_long in Hs. destruct Hs as [Hlen ->].
  pose proof (reaches_atLeastZero _ _ Hm Hlen) as Hgap.
  split; [exact Hgap|].
  split; [apply Z.div_pos; lia|].
  split; [intros ->; discriminate|].
  intros q ->.
  pose proof (reaches_floor_ms _ _ Hlen) as Hms.
  pose proof (reaches_floor _ _ Hlen) as Hfloor.
  split; [exact Hms|]. split; [exact Hfloor|].
  intros minutes Hq.
  rewrite (Qfloor_comp _ _ Hq), Qfloor_Z in Hms, Hfloor.
  split; assumption.
Qed.

(** C6, amended.  With well-formed events and a minimum duration of zero
    or more, the slots returned are in ascending order of start and each
    ends no later than every later one starts. *)
Theorem findFreeTimeSlots_sorted :
  Forall wellFormed events ->
  atLeastZero minDurationMinutes ->
  exists result,
    findFreeTimeSlots tz getEvents userId startDate endDate
      minDurationMinutes = inr result
    /\ StronglySorted before (freeSlots result).
Proof.
  intros Hwf Hm. eexists. split; [apply findFreeTimeSlots_fetched|].
  apply freeTimeSlotsIn_sorted; assumption.
Qed.

End FreeTimeSlots.

(** C5, amended.  A day whose working window lies wholly before or wholly
    after the range contributes no slot, whatever the minimum duration;
    and when the range and the events are well formed and the minimum
    duration is positive, so does a day whose window merely fails to
    overlap the range. *)
Theorem daySlots_outside_range (tz start_ end' : Z) (minDurationMinutes : num)
  (events : list Event) (currentDay : Z) :
  (setHours tz currentDay 17 < start_ \/ end' < setHours tz currentDay 9 ->
   daySlots tz start_ end' minDurationMinutes (sortByStart events) currentDay
   = [])
  /\ (start_ <= end' ->
      Forall wellFormed events ->
      ~ overlaps (workWindow tz currentDay) (start_, end') ->
      positive minDurationMinutes ->
      daySlots tz start_ end' minDurationMinutes (sortByStart events)
        currentDay = []).
Proof.
  split; [apply daySlots_skipped|].
  intros Hrange Hwf Hno Hm. unfold daySlots.
  destruct (dayWindow tz start_ end' currentDay) as [[ws we]|] eqn:Hw;
    [|reflexivity].
  apply dayWindow_inside in Hw. destruct Hw as (Hlo & Hhi & _ & Hws & Hwe).
  pose proof (workday_before_next tz currentDay) as Hday.
  unfold overlaps, workWindow in Hno. simpl in Hno.
  assert (Hpin : ws = we) by lia.
  apply gapSlots_pinched with (p := ws); [exact Hm|].
  constructor; [simpl; lia|].
  apply Forall_app. split.
  - apply Forall_forall. intros c Hc.
    apply in_map_iff in Hc. destruct Hc as (e & <- & He).
    apply filter_In in He. destruct He as [He Hov].
    apply (proj1 (sortByStart_In _ _)) in He.
    rewrite Forall_forall in Hwf.
    apply overlapping_wellFormed in Hov; [|exact (Hwf e He)].
    simpl. lia.
  - repeat constructor; simpl; lia.
Qed.

(** ** suggestRescheduling *)

Section Rescheduling.

Variable tz : Z.
Variable getEvents : string -> Z -> Z -> promise (list Event).
Variables (now : Z) (userId eventId : string).
Variable events : list Event.
Variable target : Event.

Hypothesis fetched : getEvents userId now (addDays now 14) = inr events.
Hypothesis found :
  find (fun event => String.eqb (id event) eventId) events = Some target.

Let durationMinutes := (end_ target - start target) / (1000 * 60).

Lemma suggestRescheduling_found :
  suggestRescheduling tz getEvents now userId eventId
  = inr (Alternatives
           {| summaryId := id target;
              summaryTitle := title target;
              summaryStart := start target;
              summaryEnd := end_ target;
              summaryDuration := durationMinutes |}
           (firstn 3
              (filter
                 (fun slot => negb (isSameDay tz (slotStart slot) (start target)))
                 (freeSlots
                    (freeTimeSlotsIn tz events now (addDays now 14)
                       (ofZ durationMinutes)))))).
Proof.
  unfold suggestRescheduling. rewrite fetched. cbn [bind Monad_either].
  rewrite found.
  rewrite (findFreeTimeSlots_fetched tz getEvents userId now (addDays now 14)
             _ events fetched).
  reflexivity.
Qed.

(** C9, amended.  When the snapshot holds the event, at most three
    alternatives are returned and none starts on the day the event
    starts; when moreover every event of the snapshot is well formed, they
    are in ascending order of start. *)
Theorem suggestRescheduling_alternatives :
  exists summary alternativeSlots,
    suggestRescheduling tz getEvents now userId eventId
    = inr (Alternatives summary alternativeSlots)
    /\ (List.length alternativeSlots <= 3)%nat
    /\ Forall (fun slot => isSameDay tz (slotStart slot) (start target) = false)
         alternativeSlots
    /\ (Forall wellFormed events -> startsAscending alternativeSlots).
Proof.
  do 2 eexists. split; [apply suggestRescheduling_found|].
  split; [apply firstn_le_length|]. split.
  - apply Forall_forall. intros slot Hin.
    apply In_firstn, filter_In in Hin. destruct Hin as [_ Hday].
    now apply negb_true_iff in Hday.
  - intros Hwf.
    apply before_startsAscending, StronglySorted_firstn, StronglySorted_filter.
    apply freeTimeSlotsIn_sorted; [exact Hwf|].
    apply find_some in found. destruct found as [Hin _].
    rewrite Forall_forall in Hwf. specialize (Hwf target Hin).
    unfold wellFormed in Hwf.
    assert (Hminutes : 0 <= (end_ target - start target) / (1000 * 60))
      by (apply Z.div_pos; lia).
    unfold atLeastZero, ofZ, Qle. simpl. lia.
Qed.

End Rescheduling.

(** ** Analytics *)

Section AnalyticsFacts.

Variable tz : Z.

Lemma tallyEvent_allDay (t : Tally) (e : Event) :
  isAllDay e -> tallyEvent tz t e = t.
Proof. unfold isAllDay, tallyEvent. intros ->. reflexivity. Qed.

Lemma tally_allDay (events : list Event) (t : Tally) :
  Forall isAllDay events -> fold_left (tallyEvent tz) events t = t.
Proof.
  intros H. revert t. induction H as [|e l He _ IH]; intros t; simpl.
  - reflexivity.
  - rewrite tallyEvent_allDay by exact He. apply IH.
Qed.

Lemma tally_without (before_ after : list Event) (e : Event) (t : Tally) :
  isAllDay e ->
  fold_left (tallyEvent tz) (before_ ++ e :: after) t
  = fold_left (tallyEvent tz) (before_ ++ after) t.
Proof.
  intros He. rewrite !fold_left_app. simpl.
  now rewrite tallyEvent_allDay by exact He.
Qed.

(** [meetingCount] counts the events that are not all-day. *)
Lemma tally_count (events : list Event) (t : Tally) :
  tallyCount (fold_left (tallyEvent tz) events t)
  = tallyCount t
    + Z.of_nat (List.length (filter (fun e => negb (allDay e)) events)).
Proof.
  revert t. induction events as [|e l IH]; intros t; simpl; [lia|].
  rewrite IH. unfold tallyEvent.
  destruct (allDay e); simpl; lia.
Qed.

Lemma meetingCount_positive (events : list Event) (start_ end' : Z) :
  Exists isMeeting events ->
  0 < meetingCount (calendarAnalyticsOf tz events start_ end').
Proof.
  intros H. unfold calendarAnalyticsOf.
  destruct (fold_left busier _ _). simpl.
  rewrite tally_count. simpl.
  apply Exists_exists in H. destruct H as (e & He & Hm).
  assert (Hin : In e (filter (fun e => negb (allDay e)) events)).
  { apply filter_In. split; [exact He|]. unfold isMeeting in Hm.
    now rewrite Hm. }
  destruct (filter _ events); [contradiction|simpl; lia].
Qed.

End AnalyticsFacts.

(** No minutes over a positive number of days is an average of zero. *)
Lemma zero_over_positive (dayCount : num) :
  positive dayCount -> jsDiv (Fin 0) dayCount = Fin 0.
Proof.
  destruct dayCount as [q| | | |]; simpl; try contradiction; intros H.
  - unfold jsDiv. simpl.
    now rewrite Qltb_positive, Qeq_bool_positive by exact H.
  - reflexivity.
Qed.

(** An integer over a positive integer. *)
Lemma jsDiv_ofZ (d n : Z) :
  0 < n ->
  jsDiv (ofZ d) (ofZ n)
  = if d =? 0 then Fin 0 else Fin (Qred (inject_Z d / inject_Z n)).
Proof.
  intros Hn. unfold jsDiv, ofZ.
  cbn [isNaN isInfinite isZero isNegative magnitude orb].
  rewrite !Qeq_bool_inject_Z.
  rewrite (Qltb_positive (inject_Z n)) by (unfold Qlt; simpl; lia).
  destruct (Z.eqb_spec n 0) as [->|_]; [lia|].
  destruct (Z.eqb_spec d 0) as [->|_]; reflexivity.
Qed.

(** The day count is positive when the range runs forward, and zero or
    less when it does not. *)
Lemma dayCountOf_positive (start_ end' : Z) :
  start_ < end' -> positive (dayCountOf start_ end').
Proof.
  intros H. unfold dayCountOf. rewrite jsDiv_ofZ by lia.
  destruct (Z.eqb_spec (end' - start_) 0) as [E|_]; [lia|].
  set (q := Qred _).
  assert (Hq : (0 < q)%Q).
  { unfold q. rewrite Qred_correct. apply Qlt_shift_div_l; [reflexivity|].
    rewrite Qmult_0_l. unfold Qlt. simpl. lia. }
  unfold mathCeil. rewrite (Qltb_positive _ Hq).
  cbn [andb positive ofZ].
  eapply Qlt_le_trans; [exact Hq|apply Qle_ceiling].
Qed.

Lemma dayCountOf_nonPositive (start_ end' : Z) :
  end' <= start_ -> nonPositive (dayCountOf start_ end').
Proof.
  intros H. unfold dayCountOf. rewrite jsDiv_ofZ by lia.
  destruct (Z.eqb_spec (end' - start_) 0) as [E|N].
  - vm_compute. discriminate.
  - set (q := Qred _).
    assert (Hq : (q < 0)%Q).
    { unfold q. rewrite Qred_correct.
      apply Qlt_shift_div_r; [reflexivity|]. rewrite Qmult_0_l.
      unfold Qlt. simpl. lia. }
    unfold mathCeil.
    destruct (Qltb q 0 && Qltb (- (1)) q); [exact I|].
    cbn [nonPositive ofZ].
    pose proof (Qceiling_lt q) as Hc.
    assert (Hlt : (inject_Z (Qceiling q - 1) < 0)%Q)
      by (eapply Qlt_trans; eassumption).
    unfold Qlt, Qle in *. simpl in *. lia.
Qed.

Section GetCalendarAnalytics.

Variable tz : Z.
Variable getEvents : string -> Z -> Z -> promise (list Event).
Variables (userId : string) (startDate endDate : Z).

Lemma getCalendarAnalytics_fetched (events : list Event) :
  getEvents userId startDate endDate = inr events ->
  getCalendarAnalytics tz getEvents userId startDate endDate
  = inr (calendarAnalyticsOf tz events startDate endDate).
Proof. intros H. unfold getCalendarAnalytics. rewrite H. reflexivity. Qed.

(** C10.  On a snapshot of all-day events only, over a range with a
    positive day count, every aggregate is zero or empty. *)
Theorem getCalendarAnalytics_all_day (events : list Event) :
  getEvents userId startDate endDate = inr events ->
  Forall isAllDay events ->
  positive (dayCountOf startDate endDate) ->
  exists report,
    getCalendarAnalytics tz getEvents userId startDate endDate = inr report
    /\ totalMeetingMinutes report = 0%Q
    /\ meetingCount report = 0
    /\ averageMeetingLength report = Fin 0
    /\ categoryCounts report = []
    /\ dailyMeetingMinutes report = []
    /\ busiestDay report = ""
    /\ busiestDayMinutes report = 0%Q
    /\ averageDailyMeetingMinutes report = Fin 0.
Proof.
  intros Hfetch Hall Hdays. eexists.
  split; [apply getCalendarAnalytics_fetched, Hfetch|].
  unfold calendarAnalyticsOf. rewrite tally_allDay by exact Hall.
  simpl. rewrite zero_over_positive by exact Hdays.
  repeat split; reflexivity.
Qed.

Lemma calendarAnalyticsOf_without
  (before_ after : list Event) (e : Event) :
  isAllDay e ->
  calendarAnalyticsOf tz (before_ ++ e :: after) startDate endDate
  = calendarAnalyticsOf tz (before_ ++ after) startDate endDate.
Proof.
  intros He. unfold calendarAnalyticsOf. now rewrite tally_without.
Qed.

(** C8.  An all-day event added anywhere in the snapshot changes nothing
    in the report: the call on the snapshot with it and the call on the
    snapshot without it return the same report. *)
Theorem getCalendarAnalytics_ignores_all_day
  (getEvents' : string -> Z -> Z -> promise (list Event))
  (before_ after : list Event) (e : Event) :
  isAllDay e ->
  getEvents userId startDate endDate = inr (before_ ++ after) ->
  getEvents' userId startDate endDate = inr (before_ ++ e :: after) ->
  exists report,
    getCalendarAnalytics tz getEvents userId startDate endDate = inr report
    /\ getCalendarAnalytics tz getEvents' userId startDate endDate
       = inr report.
Proof.
  intros He H H'. eexists.
  split; [apply getCalendarAnalytics_fetched, H|].
  unfold getCalendarAnalytics. rewrite H'. cbn [bind ret Monad_either].
  now rewrite calendarAnalyticsOf_without.
Qed.

(** C4, amended.  With at least one event that is not all-day,
    [averageMeetingLength] is the total divided by the count and then
    rounded to the nearest integer; with none it is zero. *)
Theorem getCalendarAnalytics_average_length (events : list Event) :
  getEvents userId startDate endDate = inr events ->
  exists report,
    getCalendarAnalytics tz getEvents userId startDate endDate = inr report
    /\ (Exists isMeeting events ->
        averageMeetingLength report
        = mathRound (jsDiv (Fin (totalMeetingMinutes report))
                       (ofZ (meetingCount report))))
    /\ (Forall isAllDay events -> averageMeetingLength report = Fin 0).
Proof.
  intros Hfetch. eexists.
  split; [apply getCalendarAnalytics_fetched, Hfetch|]. split.
  - intros Hex. pose proof (meetingCount_positive tz _ startDate endDate Hex) as Hpos.
    revert Hpos. unfold calendarAnalyticsOf.
    destruct (fold_left busier _ _). simpl. intros Hpos.
    destruct (Z.gtb_spec (tallyCount (fold_left (tallyEvent tz) events emptyTally)) 0);
      [reflexivity|lia].
  - intros Hall. unfold calendarAnalyticsOf.
    rewrite tally_allDay by exact Hall. reflexivity.
Qed.

(** C2, amended.  A range whose day count is zero or less is not
    rejected: the call fails only as the fetch fails, and otherwise
    returns a report whose totals, counts, histograms and busiest day are
    those of the same events over any other range. *)
Theorem getCalendarAnalytics_degenerate_range :
  nonPositive (dayCountOf startDate endDate) ->
  (forall error, getEvents userId startDate endDate = inl error ->
     getCalendarAnalytics tz getEvents userId startDate endDate = inl error)
  /\ (forall events, getEvents userId startDate endDate = inr events ->
      exists report,
        getCalendarAnalytics tz getEvents userId startDate endDate = inr report
        /\ forall start_ end',
            let other := calendarAnalyticsOf tz events start_ end' in
            totalMeetingMinutes report = totalMeetingMinutes other
            /\ totalMeetingHours report = totalMeetingHours other
            /\ meetingCount report = meetingCount other
            /\ averageMeetingLength report = averageMeetingLength other
            /\ categoryCounts report = categoryCounts other
            /\ dailyMeetingMinutes report = dailyMeetingMinutes other
            /\ busiestDay report = busiestDay other
            /\ busiestDayMinutes report = busiestDayMinutes other
            /\ busiestDayHours report = busiestDayHours other).
Proof.
  intros _. split.
  - intros error H. unfold getCalendarAnalytics. now rewrite H.
  - intros events H. eexists.
    split; [apply getCalendarAnalytics_fetched, H|].
    intros start_ end'. unfold calendarAnalyticsOf.
    destruct (fold_left busier _ _). simpl. repeat split; reflexivity.
Qed.

End GetCalendarAnalytics.

(** ** Failures of the collaborators *)

(** C3, amended.  When the collaborator fails, [findOptimalMeetingTime]
    and [findEvents] fulfil with the empty list; when it succeeds,
    [findOptimalMeetingTime] passes its answer on. *)
Theorem failures_become_empty_lists
  (getEvents : string -> Z -> Z -> promise (list Event))
  (AvailableSlot : Type)
  (findAvailableTimeSlots : string -> string -> Z -> promise (list AvailableSlot))
  (now : Z) (userId query : string) (participantIds : list string)
  (durationMinutes : Z) (startDate endDate : string) :
  (forall error,
     findAvailableTimeSlots userId startDate durationMinutes = inl error ->
     findOptimalMeetingTime AvailableSlot findAvailableTimeSlots userId
       participantIds durationMinutes startDate endDate = inr [])
  /\ (forall slots,
        findAvailableTimeSlots userId startDate durationMinutes = inr slots ->
        findOptimalMeetingTime AvailableSlot findAvailableTimeSlots userId
          participantIds durationMinutes startDate endDate = inr slots)
  /\ (forall error,
        getEvents userId now (addDays now 30) = inl error ->
        findEvents getEvents now userId query = inr []).
Proof.
  repeat split.
  - intros error H. unfold findOptimalMeetingTime. now rewrite H.
  - intros slots H. unfold findOptimalMeetingTime. now rewrite H.
  - intros error H. unfold findEvents. now rewrite H.
Qed.

(** ** Concrete inputs *)

(** Settles [Forall P [e1; ...; en]] when [P] of each entry is decided by
    evaluation. *)
Ltac each_by_evaluation :=
  repeat (apply Forall_cons; [vm_compute; first [reflexivity|discriminate]|]);
  apply Forall_nil.

(** C1.  With a short meeting inside a long one, the slot that follows
    the short meeting runs over the rest of the long one: the call
    returns the single slot 10:30 to 17:00, which overlaps the meeting
    of 09:00 to 12:00. *)
Theorem findFreeTimeSlots_nested_events :
  Forall wellFormed [longMeeting; shortMeeting]
  /\ exists result slot,
       findFreeTimeSlots 0 (snapshot [longMeeting; shortMeeting]) "user"
         jan15 (at_ jan15 23 0) (ofZ 30) = inr result
       /\ freeSlots result = [slot]
       /\ slotInterval slot = (at_ jan15 10 30, at_ jan15 17 0)
       /\ overlaps (slotInterval slot) (boundary longMeeting).
Proof.
  split; [each_by_evaluation|].
  do 2 eexists. split; [reflexivity|].
  split; [vm_compute; reflexivity|].
  split; [reflexivity|].
  vm_compute. split; reflexivity.
Qed.

Lemma findFreeTimeSlots_min_duration_witness :
  exists result,
    findFreeTimeSlots 0 (snapshot [longMeeting; shortMeeting]) "user"
      jan15 (at_ jan15 23 0) (ofZ 30) = inr result
    /\ Forall (fun slot =>
                 0 <= slotEnd slot - slotStart slot
                 /\ 0 <= duration slot
                 /\ ofZ 30 <> PosInf
                 /\ forall q,
                      ofZ 30 = Fin q ->
                      Qfloor q * 60 * 1000 <= slotEnd slot - slotStart slot
                      /\ Qfloor q <= duration slot
                      /\ forall minutes,
                           (q == inject_Z minutes)%Q ->
                           minutes * 60 * 1000
                           <= slotEnd slot - slotStart slot
                           /\ minutes <= duration slot)
         (freeSlots result).
Proof.
  apply (findFreeTimeSlots_min_duration 0
           (snapshot [longMeeting; shortMeeting]) "user" jan15
           (at_ jan15 23 0) (ofZ 30) [longMeeting; shortMeeting]);
    [reflexivity|vm_compute; discriminate].
Defined.

(** C7 as stated fails for a minimum duration that is not a whole number
    of minutes: with a minimum of half a minute and an event from
    09:00:30 to 17:00, the gap of thirty seconds after 09:00 reaches the
    threshold of 30000 ms and is returned with a [duration] of zero
    minutes, below the half minute asked for. *)
Lemma findFreeTimeSlots_duration_below_minimum :
  atLeastZero (Fin (1 # 2))
  /\ exists result slot,
       findFreeTimeSlots 0 (snapshot [lateStart]) "user"
         jan15 (at_ jan15 23 0) (Fin (1 # 2)) = inr result
       /\ freeSlots result = [slot]
       /\ slotInterval slot = (at_ jan15 9 0, at_ jan15 9 0 + 30 * 1000)
       /\ duration slot = 0
       /\ (inject_Z (duration slot) < 1 # 2)%Q.
Proof.
  split; [vm_compute; discriminate|].
  do 2 eexists. split; [reflexivity|].
  split; [vm_compute; reflexivity|].
  split; [reflexivity|].
  split; [reflexivity|].
  vm_compute. reflexivity.
Qed.

Lemma findFreeTimeSlots_sorted_witness :
  exists result,
    findFreeTimeSlots 0 (snapshot [longMeeting; shortMeeting]) "user"
      jan15 (at_ jan16 23 0) (ofZ 30) = inr result
    /\ StronglySorted before (freeSlots result).
Proof.
  apply (findFreeTimeSlots_sorted 0
           (snapshot [longMeeting; shortMeeting]) "user" jan15
           (at_ jan16 23 0) (ofZ 30) [longMeeting; shortMeeting]);
    [reflexivity
    |each_by_evaluation
    |vm_compute; discriminate].
Defined.

(** C6 as stated fails for a negative minimum duration: with a threshold
    of minus two hours the gap that runs backwards from 12:00 to 10:00 is
    kept, ahead of the slot that starts at 10:30. *)
Lemma findFreeTimeSlots_unsorted_below_zero :
  Forall wellFormed [longMeeting; shortMeeting]
  /\ exists result,
       findFreeTimeSlots 0 (snapshot [longMeeting; shortMeeting]) "user"
         jan15 (at_ jan15 23 0) (ofZ (-120)) = inr result
       /\ map slotInterval (freeSlots result)
          = [(at_ jan15 9 0, at_ jan15 9 0);
             (at_ jan15 12 0, at_ jan15 10 0);
             (at_ jan15 10 30, at_ jan15 17 0)]
       /\ ~ StronglySorted before (freeSlots result).
Proof.
  split; [each_by_evaluation|].
  eexists. split; [reflexivity|].
  split; [vm_compute; reflexivity|].
  intros H. vm_compute freeSlots in H.
  apply StronglySorted_tail, StronglySorted_head in H.
  unfold before in H. simpl in H. lia.
Qed.

Lemma daySlots_outside_range_witness :
  daySlots 0 (at_ jan16 8 0) (at_ jan16 23 0) (ofZ 0)
    (sortByStart [longMeeting]) jan15 = []
  /\ daySlots 0 (at_ jan15 17 0) (at_ jan15 23 0) (ofZ 30)
       (sortByStart [longMeeting]) jan15 = [].
Proof.
  split.
  - apply (proj1 (daySlots_outside_range 0 (at_ jan16 8 0) (at_ jan16 23 0)
                    (ofZ 0) [longMeeting] jan15)).
    left. vm_compute. reflexivity.
  - apply (proj2 (daySlots_outside_range 0 (at_ jan15 17 0) (at_ jan15 23 0)
                    (ofZ 30) [longMeeting] jan15)).
    + vm_compute. discriminate.
    + each_by_evaluation.
    + unfold overlaps, workWindow. simpl. vm_compute. intros [_ H].
      discriminate.
    + vm_compute. reflexivity.
Defined.

(** C5 as stated fails at a minimum duration of zero: for a range that
    begins at 17:00 the day's window, 09:00 to 17:00, does not overlap
    the range, yet the day is iterated and yields the slot 17:00 to
    17:00. *)
Lemma zero_length_slot_at_window_edge :
  In jan15 (iteratedDays 0 (at_ jan15 17 0) (at_ jan15 23 0))
  /\ ~ overlaps (workWindow 0 jan15) (at_ jan15 17 0, at_ jan15 23 0)
  /\ map slotInterval
       (daySlots 0 (at_ jan15 17 0) (at_ jan15 23 0) (ofZ 0) (sortByStart [])
          jan15)
     = [(at_ jan15 17 0, at_ jan15 17 0)]
  /\ exists result,
       findFreeTimeSlots 0 (snapshot []) "user"
         (at_ jan15 17 0) (at_ jan15 23 0) (ofZ 0) = inr result
       /\ map slotInterval (freeSlots result)
          = [(at_ jan15 17 0, at_ jan15 17 0)].
Proof.
  split; [left; reflexivity|].
  split; [unfold overlaps, workWindow; vm_compute; intros [_ H]; discriminate|].
  split; [vm_compute; reflexivity|].
  eexists. split; [reflexivity|vm_compute; reflexivity].
Qed.

Lemma suggestRescheduling_alternatives_witness :
  exists summary alternativeSlots,
    suggestRescheduling 0 (snapshot [standup; longMeeting]) (at_ jan15 8 0)
      "user" "standup"
    = inr (Alternatives summary alternativeSlots)
    /\ (List.length alternativeSlots <= 3)%nat
    /\ Forall (fun slot => isSameDay 0 (slotStart slot) (start standup) = false)
         alternativeSlots
    /\ (Forall wellFormed [standup; longMeeting] ->
        startsAscending alternativeSlots).
Proof.
  apply (suggestRescheduling_alternatives 0 (snapshot [standup; longMeeting])
           (at_ jan15 8 0) "user" "standup" [standup; longMeeting] standup);
    reflexivity.
Defined.

(** C9 as stated fails on a snapshot with an event whose end precedes its
    start: the day of that event yields 09:00 to 10:00 and then 08:00 to
    17:00, so the alternatives are not in ascending order. *)
Lemma suggestRescheduling_not_ascending :
  find (fun event => String.eqb (id event) "standup")
    [standup; backwardsEvent] = Some standup
  /\ exists summary alternativeSlots,
       suggestRescheduling 0 (snapshot [standup; backwardsEvent])
         (at_ jan15 8 0) "user" "standup"
       = inr (Alternatives summary alternativeSlots)
       /\ map slotInterval (firstn 2 alternativeSlots)
          = [(at_ jan16 9 0, at_ jan16 10 0); (at_ jan16 8 0, at_ jan16 17 0)]
       /\ ~ startsAscending alternativeSlots.
Proof.
  split; [reflexivity|].
  do 2 eexists. split; [vm_compute; reflexivity|].
  split; [vm_compute; reflexivity|].
  intros H. apply StronglySorted_head in H. simpl in H. lia.
Qed.

Lemma getCalendarAnalytics_all_day_witness :
  exists report,
    getCalendarAnalytics 0 (snapshot [holiday]) "user" jan15 jan16 = inr report
    /\ totalMeetingMinutes report = 0%Q
    /\ meetingCount report = 0
    /\ averageMeetingLength report = Fin 0
    /\ categoryCounts report = []
    /\ dailyMeetingMinutes report = []
    /\ busiestDay report = ""
    /\ busiestDayMinutes report = 0%Q
    /\ averageDailyMeetingMinutes report = Fin 0.
Proof.
  apply (getCalendarAnalytics_all_day 0 (snapshot [holiday]) "user"
           jan15 jan16 [holiday]);
    [reflexivity|each_by_evaluation|vm_compute; reflexivity].
Defined.

Lemma getCalendarAnalytics_ignores_all_day_witness :
  exists report,
    getCalendarAnalytics 0 (snapshot [workHour; halfHour]) "user" jan15 jan16
    = inr report
    /\ getCalendarAnalytics 0 (snapshot [workHour; holiday; halfHour]) "user"
         jan15 jan16 = inr report.
Proof.
  apply (getCalendarAnalytics_ignores_all_day 0
           (snapshot [workHour; halfHour]) "user" jan15 jan16
           (snapshot [workHour; holiday; halfHour])
           [workHour] [halfHour] holiday);
    reflexivity.
Defined.

Lemma getCalendarAnalytics_average_length_witness :
  exists report,
    getCalendarAnalytics 0 (snapshot [workHour; halfHour]) "user" jan15 jan16
    = inr report
    /\ (Exists isMeeting [workHour; halfHour] ->
        averageMeetingLength report
        = mathRound (jsDiv (Fin (totalMeetingMinutes report))
                       (ofZ (meetingCount report))))
    /\ (Forall isAllDay [workHour; halfHour] ->
        averageMeetingLength report = Fin 0).
Proof.
  apply (getCalendarAnalytics_average_length 0
           (snapshot [workHour; halfHour]) "user" jan15 jan16
           [workHour; halfHour]).
  reflexivity.
Defined.

(** Meetings of 60 and 30 minutes, the first in category "work": 90
    minutes in all, one count for "work" and one for "Uncategorized", and
    an average length of 45. *)
Example analytics_of_two_meetings :
  exists report,
    getCalendarAnalytics 0 (snapshot [workHour; halfHour]) "user" jan15 jan16
    = inr report
    /\ totalMeetingMinutes report = 90%Q
    /\ categoryCounts report = [("work", 1); ("Uncategorized", 1)]
    /\ averageMeetingLength report = Fin 45.
Proof.
  eexists. split; [reflexivity|].
  repeat split; vm_compute; reflexivity.
Qed.

(** C4 as stated fails when the quotient is not an integer: meetings of 60
    and 31 minutes total 91 minutes over 2 meetings, and the average
    reported is 46, not 91/2. *)
Lemma averageMeetingLength_not_the_quotient :
  Exists isMeeting [workHour; halfHourAndOne]
  /\ exists report,
       getCalendarAnalytics 0 (snapshot [workHour; halfHourAndOne]) "user"
         jan15 jan16 = inr report
       /\ totalMeetingMinutes report = 91%Q
       /\ meetingCount report = 2
       /\ averageMeetingLength report = Fin 46
       /\ averageMeetingLength report
          <> jsDiv (Fin (totalMeetingMinutes report))
               (ofZ (meetingCount report)).
Proof.
  split; [left; reflexivity|].
  eexists. split; [reflexivity|].
  repeat split; try (vm_compute; reflexivity).
  vm_compute. discriminate.
Qed.

Lemma getCalendarAnalytics_degenerate_range_witness :
  nonPositive (dayCountOf jan15 jan15)
  /\ exists report,
       getCalendarAnalytics 0 (snapshot [workHour]) "user" jan15 jan15
       = inr report
       /\ totalMeetingMinutes report = 60%Q
       /\ meetingCount report = 1.
Proof.
  assert (Hdays : nonPositive (dayCountOf jan15 jan15))
    by (vm_compute; discriminate).
  split; [exact Hdays|].
  destruct (proj2 (getCalendarAnalytics_degenerate_range 0
                     (snapshot [workHour]) "user" jan15 jan15 Hdays)
              [workHour] eq_refl)
    as (report & Hreturned & Hsame).
  exists report. split; [exact Hreturned|].
  destruct (Hsame jan15 jan16) as (Htotal & _ & Hcount & _).
  rewrite Htotal, Hcount. split; vm_compute; reflexivity.
Defined.

(** C2 as stated fails: a range with equal ends has a day count of zero,
    and the call still fulfils, with an average per day that is NaN for
    an empty snapshot and infinite for a snapshot with a meeting. *)
Lemma getCalendarAnalytics_divides_by_zero :
  dayCountOf jan15 jan15 = Fin 0
  /\ nonPositive (dayCountOf jan15 jan15)
  /\ (exists report,
        getCalendarAnalytics 0 (snapshot []) "user" jan15 jan15 = inr report
        /\ averageDailyMeetingMinutes report = NaN)
  /\ (exists report,
        getCalendarAnalytics 0 (snapshot [workHour]) "user" jan15 jan15
        = inr report
        /\ averageDailyMeetingMinutes report = PosInf).
Proof.
  split; [vm_compute; reflexivity|].
  split; [vm_compute; discriminate|].
  split; eexists; (split; [reflexivity|vm_compute; reflexivity]).
Qed.

Lemma failures_become_empty_lists_witness :
  findOptimalMeetingTime FreeSlot brokenSlotFinder "user" ["guest"] 30
    "2024-01-15" "2024-01-16" = inr []
  /\ findEvents brokenRepository jan15 "user" "standup" = inr [].
Proof.
  destruct (failures_become_empty_lists brokenRepository FreeSlot
              brokenSlotFinder jan15 "user" "standup" ["guest"] 30
              "2024-01-15" "2024-01-16")
    as (Hslots & _ & Hevents).
  split.
  - apply (Hslots "repository unavailable"). reflexivity.
  - apply (Hevents "repository unavailable"). reflexivity.
Defined.

(** C3 as stated fails: when the collaborator rejects, both tools fulfil
    with the empty list, which is also what they return when the
    collaborator finds nothing. *)
Lemma failure_returned_as_empty_list :
  brokenSlotFinder "user" "2024-01-15" 30 = inl "repository unavailable"
  /\ findOptimalMeetingTime FreeSlot brokenSlotFinder "user" ["guest"] 30
       "2024-01-15" "2024-01-16" = inr []
  /\ (forall error,
        findOptimalMeetingTime FreeSlot brokenSlotFinder "user" ["guest"] 30
          "2024-01-15" "2024-01-16" <> inl error)
  /\ brokenRepository "user" jan15 (addDays jan15 30)
     = inl "repository unavailable"
  /\ findEvents brokenRepository jan15 "user" "standup" = inr []
  /\ findEvents brokenRepository jan15 "user" "standup"
     = findEvents (snapshot []) jan15 "user" "standup".
Proof.
  repeat split; discriminate.
Qed.

(** * Further properties *)

(** ** Records *)

Section Records.

Context {V : Type}.

Lemma lookup_assign_same (key : string) (v : V) (r : record V) :
  lookup key (assign key v r) = Some v.
Proof.
  induction r as [|[k old] rest IH]; simpl.
  - now rewrite String.eqb_refl.
  - destruct (String.eqb key k) eqn:E; simpl; rewrite E; auto.
Qed.

Lemma lookup_assign_other (key other : string) (v : V) (r : record V) :
  other <> key -> lookup other (assign key v r) = lookup other r.
Proof.
  intros Hne. induction r as [|[k old] rest IH]; simpl.
  - destruct (String.eqb_spec other key); [contradiction|reflexivity].
  - destruct (String.eqb_spec key k) as [->|Hk]; simpl.
    + destruct (String.eqb_spec other k); [contradiction|reflexivity].
    + destruct (String.eqb other k); [reflexivity|exact IH].
Qed.

Lemma lookup_None (key : string) (r : record V) :
  lookup key r = None <-> ~ In key (map fst r).
Proof.
  induction r as [|[k v] rest IH]; simpl; [tauto|].
  destruct (String.eqb_spec key k) as [->|Hk].
  - split; [discriminate|]. intros H. exfalso. apply H. now left.
  - rewrite IH. split; intros H; [intros [E|Hin]|]; try tauto.
    congruence.
Qed.

(** Assigning keeps the keys in place, and adds a new key at the end. *)
Lemma keys_assign (key : string) (v : V) (r : record V) :
  map fst (assign key v r)
  = match lookup key r with
    | Some _ => map fst r
    | None => map fst r ++ [key]
    end.
Proof.
  induction r as [|[k old] rest IH]; simpl; [reflexivity|].
  destruct (String.eqb key k); simpl; [reflexivity|].
  rewrite IH. destruct (lookup key rest); reflexivity.
Qed.

Lemma keys_assign_NoDup (key : string) (v : V) (r : record V) :
  NoDup (map fst r) -> NoDup (map fst (assign key v r)).
Proof.
  intros Hnd. rewrite keys_assign.
  destruct (lookup key r) eqn:E; [exact Hnd|].
  apply lookup_None in E.
  apply NoDup_app; [exact Hnd|repeat constructor; intros []|].
  intros x Hx [<-|[]]. contradiction.
Qed.

End Records.

Lemma sumValues_cons (k : string) (v : Q) (r : record Q) :
  sumValues ((k, v) :: r) = (v + sumValues r)%Q.
Proof. reflexivity. Qed.

Lemma sumValues_assign (key : string) (d : Q) (r : record Q) :
  (sumValues (assign key (Qred (orZeroQ (lookup key r) + d)) r)
   == sumValues r + d)%Q.
Proof.
  induction r as [|[k v] rest IH].
  - cbn [assign lookup orZeroQ]. rewrite sumValues_cons, Qred_correct.
    unfold sumValues. simpl. ring.
  - cbn [assign lookup]. destruct (String.eqb key k).
    + cbn [orZeroQ]. rewrite !sumValues_cons, Qred_correct. ring.
    + rewrite !sumValues_cons, IH. ring.
Qed.

(** ** What the analytics fold accumulates *)

Section TallyFacts.

Variable tz : Z.

Let run (events : list Event) (t : Tally) : Tally :=
  fold_left (tallyEvent tz) events t.

(** The minutes the callback adds for an event are its length. *)
Lemma durationMinutes_correct (e : Event) :
  (Qred (inject_Z (end_ e - start e) / inject_Z (1000 * 60)) == minutesOf e)%Q.
Proof. unfold minutesOf. apply Qred_correct. Qed.

Lemma tallyEvent_categories (t : Tally) (e : Event) :
  tallyCategories (tallyEvent tz t e)
  = fold_left countCategory (labelsOf e) (tallyCategories t).
Proof.
  unfold tallyEvent, labelsOf. destruct (allDay e); [reflexivity|].
  destruct (categories e) as [[|c cs]|]; reflexivity.
Qed.

Lemma tallyEvent_daily (t : Tally) (e : Event) :
  tallyDaily (tallyEvent tz t e)
  = if allDay e then tallyDaily t
    else assign (formatDateKey tz (start e))
           (Qred (orZeroQ (lookup (formatDateKey tz (start e)) (tallyDaily t))
                  + Qred (inject_Z (end_ e - start e) / inject_Z (1000 * 60))))
           (tallyDaily t).
Proof. unfold tallyEvent. destruct (allDay e); reflexivity. Qed.

Lemma tallyEvent_minutes (t : Tally) (e : Event) :
  (tallyMinutes (tallyEvent tz t e)
   == if allDay e then tallyMinutes t else tallyMinutes t + minutesOf e)%Q.
Proof.
  unfold tallyEvent. destruct (allDay e); [reflexivity|].
  cbn [tallyMinutes]. now rewrite Qred_correct, durationMinutes_correct.
Qed.

(** The per-day buckets add up to the total. *)
Lemma run_daily_sum (events : list Event) (t : Tally) :
  (sumValues (tallyDaily t) == tallyMinutes t)%Q ->
  (sumValues (tallyDaily (run events t)) == tallyMinutes (run events t))%Q.
Proof.
  revert t. induction events as [|e l IH]; intros t Ht; [exact Ht|].
  apply IH. rewrite tallyEvent_daily, tallyEvent_minutes.
  destruct (allDay e); [exact Ht|].
  now rewrite sumValues_assign, durationMinutes_correct, Ht.
Qed.

(** The total is the sum of the lengths of the counted events. *)
Lemma run_minutes (events : list Event) (t : Tally) :
  (tallyMinutes (run events t)
   == tallyMinutes t
      + fold_right (fun e acc => if allDay e then acc else minutesOf e + acc)
          0 events)%Q.
Proof.
  revert t. induction events as [|e l IH]; intros t.
  - unfold run. cbn [fold_left fold_right]. ring.
  - unfold run in *. cbn [fold_left fold_right].
    rewrite IH, tallyEvent_minutes.
    destruct (allDay e); ring.
Qed.

Lemma minutesOn_cons (key : string) (e : Event) (l : list Event) :
  minutesOn tz key (e :: l)
  = if negb (allDay e) && String.eqb (formatDateKey tz (start e)) key
    then (minutesOf e + minutesOn tz key l)%Q else minutesOn tz key l.
Proof. reflexivity. Qed.

Lemma meetingsOn_cons (key : string) (e : Event) (l : list Event) :
  meetingsOn tz key (e :: l)
  = if negb (allDay e) && String.eqb (formatDateKey tz (start e)) key
    then e :: meetingsOn tz key l else meetingsOn tz key l.
Proof. reflexivity. Qed.

(** A bucket holds the minutes of the counted events of its day. *)
Lemma run_bucket (key : string) (events : list Event) (t : Tally) :
  (orZeroQ (lookup key (tallyDaily (run events t)))
   == orZeroQ (lookup key (tallyDaily t)) + minutesOn tz key events)%Q.
Proof.
  revert t. induction events as [|e l IH]; intros t.
  - unfold run, minutesOn. cbn [fold_left fold_right]. ring.
  - unfold run in *. cbn [fold_left]. rewrite IH, tallyEvent_daily.
    rewrite minutesOn_cons.
    destruct (allDay e); cbn [negb andb]; [reflexivity|].
    destruct (String.eqb_spec (formatDateKey tz (start e)) key) as [<-|Hne].
    + rewrite lookup_assign_same. cbn [orZeroQ].
      rewrite Qred_correct, durationMinutes_correct. ring.
    + rewrite lookup_assign_other by congruence. reflexivity.
Qed.

Lemma run_bucket_absent (key : string) (events : list Event) (t : Tally) :
  lookup key (tallyDaily (run events t)) = None
  <-> lookup key (tallyDaily t) = None /\ meetingsOn tz key events = [].
Proof.
  revert t. induction events as [|e l IH]; intros t.
  - unfold run. cbn [fold_left]. unfold meetingsOn. simpl. tauto.
  - unfold run in *. cbn [fold_left]. rewrite IH, tallyEvent_daily.
    rewrite meetingsOn_cons.
    destruct (allDay e); cbn [negb andb]; [tauto|].
    destruct (String.eqb_spec (formatDateKey tz (start e)) key) as [<-|Hne].
    + rewrite lookup_assign_same. split; intros [H H']; discriminate.
    + rewrite lookup_assign_other by congruence. tauto.
Qed.

Lemma run_daily_NoDup (events : list Event) (t : Tally) :
  NoDup (map fst (tallyDaily t)) ->
  NoDup (map fst (tallyDaily (run events t))).
Proof.
  revert t. induction events as [|e l IH]; intros t Ht; [exact Ht|].
  apply IH. rewrite tallyEvent_daily.
  destruct (allDay e); [exact Ht|]. now apply keys_assign_NoDup.
Qed.

(** Counting under one more label. *)
Lemma countCategory_count (c label : string) (counts : record Z) (n : nat) :
  lookup c counts = (if (n =? 0)%nat then None else Some (Z.of_nat n)) ->
  lookup c (countCategory counts label)
  = (let n' := ((if string_dec label c then 1 else 0) + n)%nat in
     if (n' =? 0)%nat then None else Some (Z.of_nat n')).
Proof.
  intros H. unfold countCategory.
  destruct (string_dec label c) as [->|Hne].
  - rewrite lookup_assign_same, H. cbn [Nat.add Nat.eqb].
    destruct n; cbn [Nat.eqb orZeroZ]; f_equal; lia.
  - rewrite lookup_assign_other by congruence. exact H.
Qed.

Lemma countCategories_count (c : string) (labels : list string)
  (counts : record Z) (n : nat) :
  lookup c counts = (if (n =? 0)%nat then None else Some (Z.of_nat n)) ->
  lookup c (fold_left countCategory labels counts)
  = (let n' := (count_occ string_dec labels c + n)%nat in
     if (n' =? 0)%nat then None else Some (Z.of_nat n')).
Proof.
  revert counts n. induction labels as [|l ls IH]; intros counts n H;
    [exact H|].
  simpl fold_left. rewrite (IH _ _ (countCategory_count c l counts n H)).
  cbn [count_occ]. destruct (string_dec l c); cbn zeta;
    [replace (count_occ string_dec ls c + (1 + n))%nat
       with (S (count_occ string_dec ls c) + n)%nat by lia|];
    reflexivity.
Qed.

Lemma run_categories (c : string) (events : list Event) (t : Tally) (n : nat) :
  lookup c (tallyCategories t)
  = (if (n =? 0)%nat then None else Some (Z.of_nat n)) ->
  lookup c (tallyCategories (run events t))
  = (let n' := (count_occ string_dec (flat_map labelsOf events) c + n)%nat in
     if (n' =? 0)%nat then None else Some (Z.of_nat n')).
Proof.
  revert t n. induction events as [|e l IH]; intros t n H; [exact H|].
  simpl. fold (run l (tallyEvent tz t e)).
  rewrite (IH (tallyEvent tz t e)
             (count_occ string_dec (labelsOf e) c + n)%nat).
  - cbn zeta. rewrite count_occ_app.
    replace (count_occ string_dec (flat_map labelsOf l) c
             + (count_occ string_dec (labelsOf e) c + n))%nat
      with (count_occ string_dec (labelsOf e) c
            + count_occ string_dec (flat_map labelsOf l) c + n)%nat by lia.
    reflexivity.
  - rewrite tallyEvent_categories. now apply countCategories_count.
Qed.

Lemma countCategories_NoDup (labels : list string) (counts : record Z) :
  NoDup (map fst counts) ->
  NoDup (map fst (fold_left countCategory labels counts)).
Proof.
  revert counts. induction labels as [|l ls IH]; intros counts H; [exact H|].
  simpl. apply IH. unfold countCategory. now apply keys_assign_NoDup.
Qed.

Lemma run_categories_NoDup (events : list Event) (t : Tally) :
  NoDup (map fst (tallyCategories t)) ->
  NoDup (map fst (tallyCategories (run events t))).
Proof.
  revert t. induction events as [|e l IH]; intros t Ht; [exact Ht|].
  apply IH. rewrite tallyEvent_categories. now apply countCategories_NoDup.
Qed.

End TallyFacts.

(** ** The busiest day *)

Lemma Qltb_spec (a b : Q) : BoolSpec (a < b)%Q (b <= a)%Q (Qltb a b).
Proof.
  unfold Qltb. destruct (Qcompare_spec a b) as [E|L|G]; constructor.
  - rewrite E. apply Qle_refl.
  - exact L.
  - now apply Qlt_le_weak.
Qed.

(** The scan of the buckets keeps the first bucket that is above the
    starting value and above all buckets before it, and not below any
    bucket after it; failing one, it keeps the starting value. *)
Lemma busier_fold (l : record Q) (best0 : string * Q) :
  let best := fold_left busier l best0 in
  (best = best0 /\ Forall (fun entry => snd entry <= snd best0)%Q l)
  \/ (exists l1 l2,
        l = l1 ++ best :: l2
        /\ (snd best0 < snd best)%Q
        /\ Forall (fun entry => snd entry < snd best)%Q l1
        /\ Forall (fun entry => snd entry <= snd best)%Q l2).
Proof.
  revert best0. induction l as [|[k v] l IH]; intros [d0 m0]; cbn zeta.
  - left. split; [reflexivity|constructor].
  - cbn [fold_left].
    assert (Hstep : busier (d0, m0) (k, v)
                    = if Qltb m0 v then (k, v) else (d0, m0)) by reflexivity.
    rewrite Hstep. clear Hstep.
    destruct (Qltb_spec m0 v) as [Hlt|Hle].
    + destruct (IH (k, v)) as [[Hbest Hall]|(l1 & l2 & Hl & Hgt & H1 & H2)];
        right.
      * exists [], l. rewrite Hbest. cbn [snd app] in *.
        repeat split; [exact Hlt|constructor|exact Hall].
      * exists ((k, v) :: l1), l2. cbn [snd] in *.
        repeat split; [simpl; now rewrite <- Hl| |now constructor|exact H2].
        eapply Qlt_trans; eassumption.
    + destruct (IH (d0, m0)) as [[Hbest Hall]|(l1 & l2 & Hl & Hgt & H1 & H2)].
      * left. split; [exact Hbest|]. constructor; assumption.
      * right. exists ((k, v) :: l1), l2. cbn [snd] in *.
        repeat split; [simpl; now rewrite <- Hl|exact Hgt| |exact H2].
        constructor; [|exact H1]. cbn [snd].
        eapply Qle_lt_trans; eassumption.
Qed.

(** ** Numbers that stay finite *)

Lemma finite_ofZ (z : Z) : finite (ofZ z).
Proof. split; reflexivity. Qed.

Lemma finite_Fin (q : Q) : finite (Fin q).
Proof. split; reflexivity. Qed.

Lemma finite_signedZero (negative : bool) : finite (signedZero negative).
Proof. destruct negative; split; reflexivity. Qed.

Lemma finite_jsDiv (a b : num) :
  finite a -> finite b -> isZero b = false -> finite (jsDiv a b).
Proof.
  intros [Ha1 Ha2] [Hb1 Hb2] Hb. unfold jsDiv.
  rewrite Ha1, Hb1, Ha2, Hb2, Hb. cbn [orb].
  destruct (isZero a); [apply finite_signedZero|apply finite_Fin].
Qed.

Lemma finite_jsMul (a b : num) : finite a -> finite b -> finite (jsMul a b).
Proof.
  intros [Ha1 Ha2] [Hb1 Hb2]. unfold jsMul.
  rewrite Ha1, Hb1, Ha2, Hb2. cbn [orb].
  destruct (isZero a || isZero b); [apply finite_signedZero|apply finite_Fin].
Qed.

Lemma finite_mathRound (a : num) : finite a -> finite (mathRound a).
Proof.
  destruct a; try (intros H; exact H). intros _. unfold mathRound.
  destruct (_ && _); split; reflexivity.
Qed.

Lemma isZero_ofZ (z : Z) : z <> 0 -> isZero (ofZ z) = false.
Proof.
  intros H. unfold ofZ. cbn [isZero]. rewrite Qeq_bool_inject_Z.
  now apply Z.eqb_neq.
Qed.

Lemma finite_toHours (minutes : num) : finite minutes -> finite (toHours minutes).
Proof.
  intros H. unfold toHours.
  apply finite_jsDiv; [|apply finite_ofZ|now apply isZero_ofZ].
  apply finite_mathRound, finite_jsMul; [|apply finite_ofZ].
  apply finite_jsDiv; [exact H|apply finite_ofZ|now apply isZero_ofZ].
Qed.

(** Over a range that runs forward the day count is a whole number of
    days, one or more. *)
Lemma dayCountOf_forward (start_ end' : Z) :
  start_ < end' ->
  exists days, 0 < days /\ dayCountOf start_ end' = ofZ days.
Proof.
  intros H. unfold dayCountOf. rewrite jsDiv_ofZ by lia.
  destruct (Z.eqb_spec (end' - start_) 0) as [E|_]; [lia|].
  set (q := Qred _).
  assert (Hq : (0 < q)%Q).
  { unfold q. rewrite Qred_correct. apply Qlt_shift_div_l; [reflexivity|].
    rewrite Qmult_0_l. unfold Qlt. simpl. lia. }
  unfold mathCeil. rewrite (Qltb_positive _ Hq). cbn [andb].
  exists (Qceiling q). split; [|reflexivity].
  pose proof (Qle_ceiling q) as Hc.
  assert (Hpos : (0 < inject_Z (Qceiling q))%Q)
    by (eapply Qlt_le_trans; eassumption).
  unfold Qlt in Hpos. simpl in Hpos. lia.
Qed.

(** ** The report, field by field *)

Section ReportFields.

Variable tz : Z.
Variable events : list Event.
Variables start_ end' : Z.

Let report := calendarAnalyticsOf tz events start_ end'.
Let tally := fold_left (tallyEvent tz) events emptyTally.

Lemma report_total : totalMeetingMinutes report = tallyMinutes tally.
Proof.
  unfold report, calendarAnalyticsOf. now destruct (fold_left busier _ _).
Qed.

Lemma report_count : meetingCount report = tallyCount tally.
Proof.
  unfold report, calendarAnalyticsOf. now destruct (fold_left busier _ _).
Qed.

Lemma report_categories : categoryCounts report = tallyCategories tally.
Proof.
  unfold report, calendarAnalyticsOf. now destruct (fold_left busier _ _).
Qed.

Lemma report_daily : dailyMeetingMinutes report = tallyDaily tally.
Proof.
  unfold report, calendarAnalyticsOf. now destruct (fold_left busier _ _).
Qed.

Lemma report_busiest :
  (busiestDay report, busiestDayMinutes report)
  = fold_left busier (tallyDaily tally) ("", 0%Q).
Proof.
  unfold report, calendarAnalyticsOf. now destruct (fold_left busier _ _).
Qed.

Lemma report_hours :
  totalMeetingHours report = toHours (Fin (totalMeetingMinutes report))
  /\ busiestDayHours report = toHours (Fin (busiestDayMinutes report)).
Proof.
  unfold report, calendarAnalyticsOf. now destruct (fold_left busier _ _).
Qed.

Lemma report_average_length :
  averageMeetingLength report
  = if meetingCount report >? 0
    then mathRound (jsDiv (Fin (totalMeetingMinutes report))
                      (ofZ (meetingCount report)))
    else Fin 0.
Proof.
  unfold report, calendarAnalyticsOf. now destruct (fold_left busier _ _).
Qed.

Lemma report_average_daily :
  averageDailyMeetingMinutes report
  = mathRound (jsDiv (Fin (totalMeetingMinutes report))
                 (dayCountOf start_ end'))
  /\ averageDailyMeetingHours report
     = toHours (jsDiv (Fin (totalMeetingMinutes report))
                  (dayCountOf start_ end')).
Proof.
  unfold report, calendarAnalyticsOf. now destruct (fold_left busier _ _).
Qed.

End ReportFields.

(** An event of whole minutes lasts the integer number of minutes that
    the division yields, and so do such events together. *)
Lemma minutesOf_whole (e : Event) :
  wholeMinutes e ->
  (minutesOf e == inject_Z ((end_ e - start e) / (1000 * 60)))%Q.
Proof.
  unfold wholeMinutes, minutesOf. intros Hmod.
  apply Z.div_exact in Hmod; [|lia].
  set (k := (end_ e - start e) / (1000 * 60)) in *. clearbody k.
  rewrite Hmod, inject_Z_mult. field. discriminate.
Qed.

Lemma meetingMinutes_whole (events : list Event) :
  Forall (fun e => allDay e = false -> wholeMinutes e) events ->
  (meetingMinutes events == inject_Z (wholeMeetingMinutes events))%Q.
Proof.
  induction 1 as [|e l He _ IH]; [reflexivity|].
  unfold meetingMinutes, wholeMeetingMinutes, countedMinutes in *.
  cbn [fold_right]. destruct (allDay e).
  - rewrite IH. reflexivity.
  - rewrite IH, (minutesOf_whole e (He eq_refl)), inject_Z_plus.
    reflexivity.
Qed.

Section AnalyticsExtras.

Variable tz : Z.
Variable getEvents : string -> Z -> Z -> promise (list Event).
Variables (userId : string) (startDate endDate : Z).
Variable events : list Event.

Hypothesis fetched : getEvents userId startDate endDate = inr events.

(** X1.  The count is the number of events that are not all-day.  When
    these events last whole minutes and their minutes add up to no more
    than 2^53, the total is the whole number of minutes they last
    together, and the per-day buckets add up to the total. *)
Theorem getCalendarAnalytics_totals :
  exists report,
    getCalendarAnalytics tz getEvents userId startDate endDate = inr report
    /\ meetingCount report
       = Z.of_nat (List.length (filter (fun e => negb (allDay e)) events))
    /\ (exactlySummed events ->
        (totalMeetingMinutes report
         == inject_Z (wholeMeetingMinutes events))%Q
        /\ (sumValues (dailyMeetingMinutes report)
            == totalMeetingMinutes report)%Q).
Proof.
  eexists. split; [apply getCalendarAnalytics_fetched, fetched|].
  rewrite report_total, report_count, report_daily.
  split; [now rewrite tally_count|].
  intros [Hwhole _]. split.
  - rewrite run_minutes. fold (meetingMinutes events).
    rewrite (meetingMinutes_whole events Hwhole).
    simpl. ring.
  - apply run_daily_sum. reflexivity.
Qed.

(** X2.  [dailyMeetingMinutes] has one entry for each day key on which a
    counted event starts and no other entry; when the counted events last
    whole minutes and their minutes add up to no more than 2^53, the
    entry holds the minutes of the counted events that start on that
    day. *)
Theorem getCalendarAnalytics_daily_buckets :
  exists report,
    getCalendarAnalytics tz getEvents userId startDate endDate = inr report
    /\ NoDup (map fst (dailyMeetingMinutes report))
    /\ forall key,
         match lookup key (dailyMeetingMinutes report) with
         | Some minutes =>
             meetingsOn tz key events <> []
             /\ (exactlySummed events ->
                 (minutes == minutesOn tz key events)%Q)
         | None => meetingsOn tz key events = []
         end.
Proof.
  eexists. split; [apply getCalendarAnalytics_fetched, fetched|].
  rewrite report_daily. split.
  - apply run_daily_NoDup. constructor.
  - intros key.
    pose proof (run_bucket tz key events emptyTally) as Hsum.
    pose proof (run_bucket_absent tz key events emptyTally) as Habs.
    destruct (lookup key (tallyDaily (fold_left (tallyEvent tz) events emptyTally)))
      as [minutes|].
    + split.
      * intros Hnone. destruct Habs as [_ Habs].
        specialize (Habs (conj eq_refl Hnone)). discriminate.
      * intros _. cbn [orZeroQ emptyTally tallyDaily lookup] in Hsum.
        rewrite Hsum. ring.
    + now apply Habs.
Qed.

(** X3.  When no label is a name inherited from [Object.prototype], the
    count kept for a label is the number of times the label occurs among
    the labels of the counted events, an event without categories being
    labelled "Uncategorized"; a label that does not occur has no entry,
    and no label has two. *)
Theorem getCalendarAnalytics_category_counts :
  Forall plainLabel (flat_map labelsOf events) ->
  exists report,
    getCalendarAnalytics tz getEvents userId startDate endDate = inr report
    /\ NoDup (map fst (categoryCounts report))
    /\ Forall (fun entry => plainLabel (fst entry)) (categoryCounts report)
    /\ forall label,
         lookup label (categoryCounts report)
         = (let n := count_occ string_dec (flat_map labelsOf events) label in
            if (n =? 0)%nat then None else Some (Z.of_nat n)).
Proof.
  intros Hplain.
  eexists. split; [apply getCalendarAnalytics_fetched, fetched|].
  rewrite report_categories.
  assert (Hcount : forall label,
            lookup label
              (tallyCategories (fold_left (tallyEvent tz) events emptyTally))
            = (let n := count_occ string_dec (flat_map labelsOf events) label in
               if (n =? 0)%nat then None else Some (Z.of_nat n))).
  { intros label.
    rewrite (run_categories tz label events emptyTally 0) by reflexivity.
    cbn zeta. now rewrite Nat.add_0_r. }
  split; [apply run_categories_NoDup; constructor|].
  split; [|exact Hcount].
  apply Forall_forall. intros [label n] Hin. cbn [fst].
  rewrite Forall_forall in Hplain. apply Hplain.
  apply (count_occ_In string_dec).
  specialize (Hcount label). cbn zeta in Hcount.
  destruct (count_occ string_dec (flat_map labelsOf events) label) eqn:Hn;
    [|lia].
  simpl in Hcount. apply lookup_None in Hcount.
  apply (in_map fst) in Hin. contradiction.
Qed.

(** X4.  The busiest day is the first bucket, in order of insertion, that
    is positive, above every bucket before it and not below any bucket
    after it; when no bucket is positive, the day is the empty string and
    its minutes are zero. *)
Theorem getCalendarAnalytics_busiest_day :
  exists report,
    getCalendarAnalytics tz getEvents userId startDate endDate = inr report
    /\ ((busiestDay report = "" /\ busiestDayMinutes report = 0%Q
         /\ Forall (fun entry => snd entry <= 0)%Q (dailyMeetingMinutes report))
        \/ exists earlier later,
             dailyMeetingMinutes report
             = earlier ++ (busiestDay report, busiestDayMinutes report)
                 :: later
             /\ (0 < busiestDayMinutes report)%Q
             /\ Forall (fun entry => snd entry < busiestDayMinutes report)%Q
                  earlier
             /\ Forall (fun entry => snd entry <= busiestDayMinutes report)%Q
                  later).
Proof.
  eexists. split; [apply getCalendarAnalytics_fetched, fetched|].
  pose proof (report_busiest tz events startDate endDate) as Hbest.
  pose proof (report_daily tz events startDate endDate) as Hdaily.
  set (report := calendarAnalyticsOf tz events startDate endDate) in *.
  rewrite Hdaily.
  pose proof (busier_fold
                (tallyDaily (fold_left (tallyEvent tz) events emptyTally))
                ("", 0%Q)) as Hfold.
  cbn zeta in Hfold. rewrite <- Hbest in Hfold. cbn [snd] in Hfold.
  destruct Hfold as [[Hsame Hall]|(l1 & l2 & Hl & Hgt & H1 & H2)].
  - left. injection Hsame as -> ->. auto.
  - right. exists l1, l2. auto.
Qed.

(** X5.  No hour figure and no average length in a report is NaN or
    infinite; over a range that runs forward, neither is the daily
    average. *)
Theorem getCalendarAnalytics_finite :
  exists report,
    getCalendarAnalytics tz getEvents userId startDate endDate = inr report
    /\ finite (totalMeetingHours report)
    /\ finite (averageMeetingLength report)
    /\ finite (busiestDayHours report)
    /\ (startDate < endDate ->
        finite (averageDailyMeetingMinutes report)
        /\ finite (averageDailyMeetingHours report)).
Proof.
  eexists. split; [apply getCalendarAnalytics_fetched, fetched|].
  destruct (report_hours tz events startDate endDate) as [-> ->].
  rewrite report_average_length.
  destruct (report_average_daily tz events startDate endDate) as [-> ->].
  split; [apply finite_toHours, finite_Fin|].
  split; [|split; [apply finite_toHours, finite_Fin|]].
  - destruct (Z.gtb_spec (meetingCount (calendarAnalyticsOf tz events startDate endDate)) 0);
      [|apply finite_Fin].
    apply finite_mathRound, finite_jsDiv;
      [apply finite_Fin|apply finite_ofZ|apply isZero_ofZ; lia].
  - intros Hforward.
    destruct (dayCountOf_forward _ _ Hforward) as (days & Hdays & ->).
    assert (Hquot : finite (jsDiv (Fin (totalMeetingMinutes
                      (calendarAnalyticsOf tz events startDate endDate)))
                      (ofZ days)))
      by (apply finite_jsDiv;
          [apply finite_Fin|apply finite_ofZ|apply isZero_ofZ; lia]).
    split; [apply finite_mathRound|apply finite_toHours]; exact Hquot.
Qed.

End AnalyticsExtras.

(** ** Sorting and selecting *)

Lemma insertByStart_first (x : Event) (l : list Event) :
  Forall (fun h => start x <= start h) l -> insertByStart x l = x :: l.
Proof.
  intros H. destruct l as [|h l]; [reflexivity|].
  inversion H as [|? ? Hh _]; subst. simpl.
  destruct (Z.leb_spec (start x) (start h)); [reflexivity|lia].
Qed.

Lemma filter_insertByStart (f : Event -> bool) (x : Event) (l : list Event) :
  StronglySorted startsAscend l ->
  filter f (insertByStart x l)
  = if f x then insertByStart x (filter f l) else filter f l.
Proof.
  induction 1 as [|y l Hs IH Hy]; simpl.
  - destruct (f x); reflexivity.
  - destruct (Z.leb_spec (start x) (start y)) as [Hle|Hgt].
    + simpl. destruct (f x) eqn:Hfx; [|reflexivity].
      rewrite insertByStart_first; [reflexivity|].
      assert (Hall : Forall (fun h => start x <= start h) (y :: l)).
      { constructor; [exact Hle|].
        eapply Forall_impl; [|exact Hy]. unfold startsAscend. intros; lia. }
      rewrite Forall_forall in *. intros h Hh.
      apply Hall. change (In h (filter f (y :: l))) in Hh.
      now apply filter_In in Hh.
    + simpl. rewrite IH. destruct (f y) eqn:Hfy, (f x) eqn:Hfx;
        try reflexivity.
      simpl. destruct (Z.leb_spec (start x) (start y)); [lia|reflexivity].
Qed.

(** Selecting from the sorted events is sorting the selected events. *)
Lemma filter_sortByStart (f : Event -> bool) (events : list Event) :
  filter f (sortByStart events) = sortByStart (filter f events).
Proof.
  induction events as [|e l IH]; [reflexivity|].
  simpl. rewrite filter_insertByStart by apply sortByStart_sorted.
  rewrite IH. destruct (f e); reflexivity.
Qed.

(** ** More on the slots of a day *)

Section DayFacts.

Variables tz start_ end' : Z.
Variable minDurationMinutes : num.
Variable events : list Event.

Let slotsOf := daySlots tz start_ end' minDurationMinutes (sortByStart events).

(** A day's slots depend on the events only through those that overlap
    its clipped window. *)
Lemma daySlots_local (currentDay : Z) :
  slotsOf currentDay
  = match dayWindow tz start_ end' currentDay with
    | None => []
    | Some (ws, we) =>
        gapSlots tz minDurationMinutes
          ((ws, ws)
             :: map boundary
                  (sortByStart
                     (filter (fun event =>
                                areIntervalsOverlapping (ws, we)
                                  (start event, end_ event)) events))
             ++ [(we, we)])
    end.
Proof.
  unfold slotsOf, daySlots.
  destruct (dayWindow tz start_ end' currentDay) as [[ws we]|];
    [|reflexivity].
  now rewrite filter_sortByStart.
Qed.


(** X8.  A day whose clipped window is overlapped by one event only, which
    covers it from end to end, contributes no slot when the minimum
    duration is positive. *)
Theorem daySlots_covered (currentDay ws we : Z) (e : Event) :
  dayWindow tz start_ end' currentDay = Some (ws, we) ->
  filter (fun event =>
            areIntervalsOverlapping (ws, we) (start event, end_ event))
    events = [e] ->
  start e <= ws -> we <= end_ e ->
  positive minDurationMinutes ->
  slotsOf currentDay = [].
Proof.
  intros Hw Hsel Hlo Hhi Hm. rewrite daySlots_local, Hw, Hsel.
  cbn [sortByStart fold_right insertByStart map app boundary].
  rewrite !gapSlots_step. cbn [fst snd gapSlots boundary].
  destruct (reaches (start e - ws) minDurationMinutes) eqn:Hbefore;
    [apply (reaches_positive _ _ Hm) in Hbefore; lia|].
  destruct (reaches (we - end_ e) minDurationMinutes) eqn:Hafter;
    [apply (reaches_positive _ _ Hm) in Hafter; lia|reflexivity].
Qed.

Lemma daySlots_in_range (currentDay : Z) (s : FreeSlot) :
  start_ <= end' ->
  Forall wellFormed events ->
  In s (slotsOf currentDay) ->
  start_ <= slotStart s /\ slotEnd s <= end'.
Proof.
  intros Hrange Hwf. unfold slotsOf, daySlots.
  destruct (dayWindow tz start_ end' currentDay) as [[ws we]|] eqn:Hw;
    [|contradiction].
  apply dayWindow_inside in Hw.
  destruct Hw as (_ & _ & Hproper & Hws & Hwe). specialize (Hproper Hrange).
  set (dayEvents := filter _ (sortByStart events)).
  assert (Hday : forall e', In e' dayEvents ->
            Z.min ws we < end_ e' /\ start e' < Z.max ws we).
  { intros e' He'. apply filter_In in He'. destruct He' as [He' Hov].
    apply overlapping_wellFormed; [|exact Hov].
    apply (proj1 (sortByStart_In _ _)) in He'.
    rewrite Forall_forall in Hwf. exact (Hwf e' He'). }
  intros Hin. split.
  - change ((ws, ws) :: map boundary dayEvents ++ [(we, we)])
      with (((ws, ws) :: map boundary dayEvents) ++ [(we, we)]) in Hin.
    apply gapSlots_start in Hin. destruct Hin as (c & [<-|Hc] & ->).
    + simpl. lia.
    + apply in_map_iff in Hc. destruct Hc as (e' & <- & He').
      specialize (Hday e' He'). simpl. lia.
  - apply gapSlots_end in Hin. destruct Hin as (c & Hc & ->).
    apply in_app_or in Hc. destruct Hc as [Hc|[<-|[]]].
    + apply in_map_iff in Hc. destruct Hc as (e' & <- & He').
      specialize (Hday e' He'). simpl. lia.
    + simpl. lia.
Qed.

End DayFacts.

(** The roll-up fields are derived from the list of slots. *)
Lemma freeTimeSlotsIn_rollup (tz : Z) (events : list Event)
  (start_ end' : Z) (minDurationMinutes : num) :
  let result := freeTimeSlotsIn tz events start_ end' minDurationMinutes in
  result
  = {| freeSlots := freeSlots result;
       totalFreeSlots := Z.of_nat (List.length (freeSlots result));
       totalFreeDurationMinutes :=
         fold_left (fun total slot => total + duration slot)
           (freeSlots result) 0 |}.
Proof. reflexivity. Qed.

Lemma sum_durations_bound (m : Z) (slots : list FreeSlot) (total : Z) :
  Forall (fun slot => m <= duration slot) slots ->
  total + m * Z.of_nat (List.length slots)
  <= fold_left (fun total slot => total + duration slot) slots total.
Proof.
  intros H. revert total. induction H as [|s l Hs _ IH]; intros total.
  - simpl. lia.
  - cbn [fold_left List.length]. specialize (IH (total + duration s)). nia.
Qed.

Lemma flat_map_ext_in {A B} (f g : A -> list B) (l : list A) :
  (forall a, In a l -> f a = g a) -> flat_map f l = flat_map g l.
Proof.
  induction l as [|a l IH]; intros H; [reflexivity|].
  simpl. rewrite (H a) by now left.
  rewrite IH; [reflexivity|]. intros b Hb. apply H. now right.
Qed.

Lemma daysFrom_seq (n : nat) (currentDay : Z) :
  daysFrom n currentDay
  = map (fun k => addDays currentDay (Z.of_nat k)) (seq 0 n).
Proof.
  revert currentDay. induction n as [|n IH]; intros currentDay;
    [reflexivity|].
  cbn [daysFrom seq map]. f_equal.
  - unfold addDays. simpl. lia.
  - rewrite IH, <- seq_shift, map_map. apply map_ext. intros k.
    unfold addDays. lia.
Qed.

Lemma startOfDay_dayNumber (tz t : Z) :
  startOfDay tz t = dayNumber tz t * msPerDay - tz.
Proof.
  unfold startOfDay, dayNumber.
  pose proof (Z.div_mod (t + tz) msPerDay ltac:(unfold msPerDay; lia)). lia.
Qed.

Lemma dayIterations_dayNumber (tz start_ end' : Z) :
  dayIterations (startOfDay tz start_) (endOfDay tz end')
  = Z.to_nat (dayNumber tz end' - dayNumber tz start_ + 1).
Proof.
  unfold dayIterations, endOfDay. rewrite !startOfDay_dayNumber.
  f_equal. f_equal.
  replace (dayNumber tz end' * msPerDay - tz + (msPerDay - 1)
           - (dayNumber tz start_ * msPerDay - tz))
    with ((msPerDay - 1)
          + (dayNumber tz end' - dayNumber tz start_) * msPerDay) by lia.
  rewrite Z.div_add by (unfold msPerDay; lia).
  rewrite Z.div_small by (unfold msPerDay; lia). lia.
Qed.

Lemma iteratedDays_none (tz start_ end' : Z) :
  dayNumber tz end' < dayNumber tz start_ -> iteratedDays tz start_ end' = [].
Proof.
  intros H. unfold iteratedDays. rewrite dayIterations_dayNumber.
  replace (Z.to_nat _) with O by lia. reflexivity.
Qed.

(** ** More on findFreeTimeSlots *)

(** The days iterated are the local calendar days from the day of
    [startDate] through the day of [endDate], starting at midnight of the
    first; when the day of [endDate] comes first there is none. *)
Lemma iteratedDays_seq (tz startDate endDate : Z) :
  iteratedDays tz startDate endDate
  = map (fun k => addDays (startOfDay tz startDate) (Z.of_nat k))
      (seq 0 (Z.to_nat (dayNumber tz endDate - dayNumber tz startDate + 1))).
Proof.
  unfold iteratedDays. now rewrite daysFrom_seq, dayIterations_dayNumber.
Qed.

Section FreeTimeSlotsExtras.

Variable tz : Z.
Variable getEvents : string -> Z -> Z -> promise (list Event).
Variables (userId : string) (startDate endDate : Z).
Variable minDurationMinutes : num.
Variable events : list Event.

Hypothesis fetched : getEvents userId startDate endDate = inr events.

(** X12.  The loop of [findFreeTimeSlots] ends, having run once for each
    local calendar day from the day of [startDate] through the day of
    [endDate], in that order and starting at midnight of the first: the
    slots returned are those of these days one after the other, and none
    when the day of [endDate] comes first. *)
Theorem findFreeTimeSlots_day_by_day :
  let days := Z.to_nat (dayNumber tz endDate - dayNumber tz startDate + 1) in
  scanDays tz (S days) startDate endDate minDurationMinutes
    (sortByStart events) (endOfDay tz endDate) (startOfDay tz startDate) []
  = Some (flat_map
            (fun k =>
               daySlots tz startDate endDate minDurationMinutes
                 (sortByStart events)
                 (addDays (startOfDay tz startDate) (Z.of_nat k)))
            (seq 0 days))
  /\ exists result,
       findFreeTimeSlots tz getEvents userId startDate endDate
         minDurationMinutes = inr result
       /\ freeSlots result
          = flat_map
              (fun k =>
                 daySlots tz startDate endDate minDurationMinutes
                   (sortByStart events)
                   (addDays (startOfDay tz startDate) (Z.of_nat k)))
              (seq 0 days).
Proof.
  intros days.
  assert (Hdays : flat_map
            (daySlots tz startDate endDate minDurationMinutes
               (sortByStart events))
            (iteratedDays tz startDate endDate)
          = flat_map
              (fun k =>
                 daySlots tz startDate endDate minDurationMinutes
                   (sortByStart events)
                   (addDays (startOfDay tz startDate) (Z.of_nat k)))
              (seq 0 days)).
  { rewrite iteratedDays_seq, flat_map_concat_map, map_map,
      <- flat_map_concat_map. reflexivity. }
  split.
  - rewrite <- Hdays. unfold days.
    rewrite <- dayIterations_dayNumber.
    rewrite scanDays_exit by apply Nat.lt_succ_diag_r. reflexivity.
  - eexists.
    split; [apply (findFreeTimeSlots_fetched _ _ _ _ _ _ _ fetched)|].
    now rewrite freeSlots_by_day.
Qed.



(** X9.  [totalFreeDurationMinutes] is at least the whole minutes of
    [minDurationMinutes] for each of the [totalFreeSlots] slots, so at
    least [minDurationMinutes] for each slot when that is a whole number
    of minutes; with a minimum of zero or more it is not negative. *)
Theorem findFreeTimeSlots_rollup :
  exists result,
    findFreeTimeSlots tz getEvents userId startDate endDate
      minDurationMinutes = inr result
    /\ (forall q,
          minDurationMinutes = Fin q ->
          Qfloor q * totalFreeSlots result
          <= totalFreeDurationMinutes result
          /\ forall minutes,
               (q == inject_Z minutes)%Q ->
               minutes * totalFreeSlots result
               <= totalFreeDurationMinutes result)
    /\ (atLeastZero minDurationMinutes ->
        0 <= totalFreeDurationMinutes result).
Proof.
  eexists. split; [apply (findFreeTimeSlots_fetched _ _ _ _ _ _ _ fetched)|].
  set (result := freeTimeSlotsIn tz events startDate endDate minDurationMinutes).
  change (totalFreeSlots result)
    with (Z.of_nat (List.length (freeSlots result))).
  change (totalFreeDurationMinutes result)
    with (fold_left (fun total slot => total + duration slot)
            (freeSlots result) 0).
  assert (Hslots : forall s, In s (freeSlots result) ->
            reaches (slotEnd s - slotStart s) minDurationMinutes = true
            /\ duration s = (slotEnd s - slotStart s) / (1000 * 60)).
  { intros s Hs. unfold result in Hs. rewrite freeSlots_by_day in Hs.
    apply in_flat_map in Hs. destruct Hs as (d & _ & Hs).
    now apply daySlots_long in Hs. }
  split.
  - intros q Hq.
    assert (Hfloor : Forall (fun slot => Qfloor q <= duration slot)
                       (freeSlots result)).
    { apply Forall_forall. intros s Hs.
      destruct (Hslots s Hs) as [Hlen ->]. rewrite Hq in Hlen.
      now apply reaches_floor. }
    pose proof (sum_durations_bound _ _ 0 Hfloor) as Hsum.
    split; [lia|].
    intros minutes Hminutes.
    rewrite (Qfloor_comp _ _ Hminutes), Qfloor_Z in Hsum. lia.
  - intros Hm.
    assert (Hzero : Forall (fun slot => 0 <= duration slot)
                      (freeSlots result)).
    { apply Forall_forall. intros s Hs.
      destruct (Hslots s Hs) as [Hlen ->].
      apply (reaches_atLeastZero _ _ Hm) in Hlen.
      apply Z.div_pos; lia. }
    pose proof (sum_durations_bound _ _ 0 Hzero). lia.
Qed.

(** X10.  When the day of [endDate] comes before the day of [startDate],
    the call fulfils with no slot at all. *)
Theorem findFreeTimeSlots_reversed_days :
  dayNumber tz endDate < dayNumber tz startDate ->
  findFreeTimeSlots tz getEvents userId startDate endDate minDurationMinutes
  = inr {| freeSlots := [];
           totalFreeSlots := 0;
           totalFreeDurationMinutes := 0 |}.
Proof.
  intros Hdays. rewrite (findFreeTimeSlots_fetched _ _ _ _ _ _ _ fetched).
  rewrite (freeTimeSlotsIn_rollup tz events startDate endDate minDurationMinutes).
  cbn zeta. rewrite freeSlots_by_day, iteratedDays_none by exact Hdays.
  reflexivity.
Qed.

End FreeTimeSlotsExtras.

(** X11.  An event that overlaps the clipped window of no day iterated
    changes nothing in the result, wherever it stands in the snapshot. *)
Theorem findFreeTimeSlots_ignores_outside
  (tz : Z) (getEvents getEvents' : string -> Z -> Z -> promise (list Event))
  (userId : string) (startDate endDate : Z) (minDurationMinutes : num)
  (before_ after : list Event) (e : Event) :
  outsideEveryWindow tz startDate endDate e ->
  getEvents userId startDate endDate = inr (before_ ++ after) ->
  getEvents' userId startDate endDate = inr (before_ ++ e :: after) ->
  exists result,
    findFreeTimeSlots tz getEvents userId startDate endDate
      minDurationMinutes = inr result
    /\ findFreeTimeSlots tz getEvents' userId startDate endDate
         minDurationMinutes = inr result.
Proof.
  intros Hout H H'. eexists.
  split; [apply (findFreeTimeSlots_fetched _ _ _ _ _ _ _ H)|].
  rewrite (findFreeTimeSlots_fetched _ _ _ _ _ _ _ H'). f_equal.
  rewrite (freeTimeSlotsIn_rollup tz (before_ ++ e :: after)).
  rewrite (freeTimeSlotsIn_rollup tz (before_ ++ after)). cbn zeta.
  assert (Hsame :
    freeSlots (freeTimeSlotsIn tz (before_ ++ e :: after) startDate endDate
                 minDurationMinutes)
    = freeSlots (freeTimeSlotsIn tz (before_ ++ after) startDate endDate
                   minDurationMinutes)).
  { rewrite !freeSlots_by_day. apply flat_map_ext_in. intros d Hd.
    rewrite !daySlots_local.
    destruct (dayWindow tz startDate endDate d) as [[ws we]|] eqn:Hw;
      [|reflexivity].
    rewrite !filter_app. cbn [filter].
    now rewrite (Hout d ws we Hd Hw). }
  now rewrite Hsame.
Qed.

(** ** More on suggestRescheduling *)

Lemma find_none_iff {A} (f : A -> bool) (l : list A) :
  find f l = None <-> forall x, In x l -> f x = false.
Proof.
  split; [apply find_none|].
  induction l as [|a l IH]; intros H; [reflexivity|].
  simpl. rewrite (H a) by now left. apply IH. intros x Hx. apply H. now right.
Qed.

Section ReschedulingExtras.

Variable tz : Z.
Variable getEvents : string -> Z -> Z -> promise (list Event).
Variables (now : Z) (userId eventId : string).
Variable events : list Event.

Hypothesis fetched : getEvents userId now (addDays now 14) = inr events.

(** X13.  The answer is "Event not found" exactly when no event fetched
    for the next 14 days has the given id. *)
Theorem suggestRescheduling_not_found :
  (forall e, In e events -> id e <> eventId)
  <-> suggestRescheduling tz getEvents now userId eventId
      = inr (NotFound "Event not found").
Proof.
  split.
  - intros Hnone. unfold suggestRescheduling. rewrite fetched.
    cbn [bind Monad_either].
    replace (find _ events) with (@None Event); [reflexivity|].
    symmetry. apply find_none_iff. intros e He.
    apply String.eqb_neq. now apply Hnone.
  - intros Hresult e He Hid.
    destruct (find (fun event => String.eqb (id event) eventId) events)
      as [target|] eqn:Hfind.
    + rewrite (suggestRescheduling_found tz getEvents now userId eventId
                 events target fetched Hfind) in Hresult.
      discriminate.
    + apply find_none_iff with (x := e) in Hfind; [|exact He].
      apply String.eqb_neq in Hfind. contradiction.
Qed.

(** X14.  The alternatives are long enough for the event: the summary
    reports the event's length in whole minutes, and every alternative
    lasts at least that long; with well-formed events every alternative
    lies in the 14 days that follow [now]. *)
Theorem suggestRescheduling_fits (target : Event) :
  find (fun event => String.eqb (id event) eventId) events = Some target ->
  exists summary alternativeSlots,
    suggestRescheduling tz getEvents now userId eventId
    = inr (Alternatives summary alternativeSlots)
    /\ summaryId summary = eventId
    /\ summaryDuration summary = (end_ target - start target) / (1000 * 60)
    /\ Forall (fun slot =>
                 summaryDuration summary <= duration slot
                 /\ (Forall wellFormed events ->
                     now <= slotStart slot
                     /\ slotEnd slot <= addDays now 14))
         alternativeSlots.
Proof.
  intros Hfound. do 2 eexists.
  split; [apply (suggestRescheduling_found _ _ _ _ _ _ _ fetched Hfound)|].
  cbn [summaryId summaryDuration].
  split; [apply find_some in Hfound; now apply String.eqb_eq|].
  split; [reflexivity|].
  apply Forall_forall. intros slot Hin.
  apply In_firstn, filter_In in Hin. destruct Hin as [Hin _].
  rewrite freeSlots_by_day in Hin.
  apply in_flat_map in Hin. destruct Hin as (d & _ & Hin). split.
  - apply daySlots_long in Hin. destruct Hin as [Hlen ->].
    apply reaches_ofZ in Hlen.
    apply Z.div_le_lower_bound; lia.
  - intros Hwf. eapply daySlots_in_range; [|exact Hwf|exact Hin].
    unfold addDays, msPerDay. lia.
Qed.

End ReschedulingExtras.

(** ** Text search *)

Lemma prefix_occurs (s1 s2 : string) :
  prefix s1 s2 = true <-> exists post, s2 = (s1 ++ post)%string.
Proof.
  revert s2. induction s1 as [|a s1 IH]; intros s2.
  - destruct s2; simpl; split; eauto.
  - destruct s2 as [|b s2]; simpl.
    + split; [discriminate|]. intros [post H]. discriminate.
    + destruct (ascii_dec a b) as [->|Hne].
      * rewrite IH. split; intros [post H]; exists post.
        -- now rewrite H.
        -- now injection H.
      * split; [discriminate|]. intros [post H]. simpl in H. congruence.
Qed.

Lemma index_occurs (sub s : string) :
  (exists n, index 0 sub s = Some n) <-> occursIn sub s.
Proof.
  unfold occursIn. induction s as [|b s IH].
  - simpl. destruct sub as [|a sub].
    + split; [exists "", ""; reflexivity|eauto].
    + split; [intros [n H]; discriminate|].
      intros (pre & post & H). destruct pre; discriminate.
  - cbn [index]. destruct (prefix sub (String b s)) eqn:Hp.
    + split; [|eauto]. intros _. apply prefix_occurs in Hp.
      destruct Hp as [post Hpost]. exists "", post. exact Hpost.
    + split.
      * intros [n H]. destruct (index 0 sub s) as [m|] eqn:Hi;
          [|discriminate].
        destruct (proj1 IH (ex_intro _ m eq_refl)) as (pre & post & Hs).
        exists (String b pre), post. simpl. now rewrite Hs.
      * intros (pre & post & Hs). destruct pre as [|c pre].
        -- simpl in Hs. assert (prefix sub (String b s) = true)
             by (apply prefix_occurs; eauto).
           congruence.
        -- simpl in Hs. injection Hs as _ Hs.
           destruct (proj2 IH (ex_intro _ pre (ex_intro _ post Hs)))
             as [m Hm].
           rewrite Hm. eauto.
Qed.

(** [includes] is the test for an occurrence. *)
Lemma includes_spec (s sub : string) :
  includes s sub = true <-> occursIn sub s.
Proof.
  rewrite <- index_occurs. unfold includes.
  destruct (index 0 sub s) as [n|]; split; eauto; try discriminate.
  intros [n H]. discriminate.
Qed.

Lemma fieldMatches_spec (field : option string) (lowerQuery : string) :
  fieldMatches field lowerQuery = true
  <-> exists text, field = Some text /\ occursIn lowerQuery (toLowerCase text).
Proof.
  destruct field as [text|]; simpl.
  - rewrite includes_spec. split; [eauto|].
    now intros (t & [= <-] & H).
  - split; [discriminate|]. intros (t & H & _). discriminate.
Qed.

Section FindEvents.

Variable getEvents : string -> Z -> Z -> promise (list Event).
Variables (now : Z) (userId query : string).
Variable events : list Event.

Hypothesis fetched : getEvents userId now (addDays now 30) = inr events.

(** X16.  [findEvents] returns events of the next 30 days in the order
    fetched.  When the query and the titles, descriptions and locations
    fetched are ASCII text, an event is returned exactly when it was
    fetched and has a title, a description or a location in which the
    query occurs, the case of the letters A to Z apart. *)
Theorem findEvents_matches :
  exists found,
    findEvents getEvents now userId query = inr found
    /\ (exists test, found = filter test events)
    /\ (isAscii query = true ->
        Forall asciiEvent events ->
        forall event,
          In event found <-> In event events /\ mentions query event).
Proof.
  eexists. split; [unfold findEvents; rewrite fetched; reflexivity|].
  split; [eauto|]. intros _ _ event. rewrite filter_In.
  rewrite !orb_true_iff, !fieldMatches_spec. unfold mentions.
  split.
  - intros [Hin [[(t & Ht & Ho)|(t & Ht & Ho)]|(t & Ht & Ho)]];
      (split; [exact Hin|]); exists t; auto.
  - intros [Hin (t & [Ht|[Ht|Ht]] & Ho)]; (split; [exact Hin|]); eauto.
Qed.

End FindEvents.

(** X17.  With the empty query [findEvents] returns every fetched event
    that has a title, a description or a location, and leaves out the
    events that have none of them. *)
Theorem findEvents_empty_query
  (getEvents : string -> Z -> Z -> promise (list Event))
  (now : Z) (userId : string) (events : list Event) :
  getEvents userId now (addDays now 30) = inr events ->
  findEvents getEvents now userId ""
  = inr (filter (fun event =>
                   match title event, description event, location event with
                   | None, None, None => false
                   | _, _, _ => true
                   end) events).
Proof.
  intros H. unfold findEvents. rewrite H. cbn [bind ret Monad_either catch Exception_either].
  f_equal. apply filter_ext. intros event.
  assert (Hany : forall field,
            fieldMatches field (toLowerCase "")
            = match field with Some _ => true | None => false end).
  { intros [text|]; [|reflexivity]. apply includes_spec.
    exists "", (toLowerCase text). reflexivity. }
  rewrite !Hany.
  destruct (title event), (description event), (location event); reflexivity.
Qed.

(** ** The order of the events *)

Lemma insertByStart_Permutation (e : Event) (l : list Event) :
  Permutation (e :: l) (insertByStart e l).
Proof.
  induction l as [|x l IH]; simpl; [apply Permutation_refl|].
  destruct (start e <=? start x); [apply Permutation_refl|].
  eapply Permutation_trans; [apply perm_swap|]. now apply perm_skip.
Qed.

Lemma sortByStart_same_start (s : Z) (l : list Event) :
  Forall (fun e => start e = s) l -> sortByStart l = l.
Proof.
  induction 1 as [|e l He Hl IH]; [reflexivity|].
  simpl. rewrite IH. apply insertByStart_first.
  eapply Forall_impl; [|exact Hl]. intros x Hx. cbn beta in *. lia.
Qed.

(** X21.  The events are put in ascending order of start, none is lost or
    added, and events with the same start keep the order they were fetched
    in. *)
Theorem sortByStart_stable (events : list Event) :
  StronglySorted startsAscend (sortByStart events)
  /\ Permutation events (sortByStart events)
  /\ forall s,
       filter (fun e => start e =? s) (sortByStart events)
       = filter (fun e => start e =? s) events.
Proof.
  split; [apply sortByStart_sorted|]. split.
  - induction events as [|e l IH]; [apply Permutation_refl|].
    simpl. eapply Permutation_trans; [|apply insertByStart_Permutation].
    now apply perm_skip.
  - intros s. rewrite filter_sortByStart.
    apply sortByStart_same_start with (s := s).
    apply Forall_forall. intros e He. apply filter_In in He.
    destruct He as [_ He]. now apply Z.eqb_eq.
Qed.

(** ** Days and their keys *)

(** X22.  Two instants of the same local day have the same date key, so
    events that start on one day are added to one bucket. *)
Theorem same_day_same_key (tz a b : Z) :
  isSameDay tz a b = true -> formatDateKey tz a = formatDateKey tz b.
Proof.
  unfold isSameDay. intros H. apply Z.eqb_eq in H.
  rewrite !startOfDay_dayNumber in H.
  assert (Hday : dayNumber tz a = dayNumber tz b)
    by (unfold msPerDay in H; lia).
  unfold formatDateKey. fold (dayNumber tz a) (dayNumber tz b).
  now rewrite Hday.
Qed.

(** ** Rescheduling an event *)

(** X18.  [rescheduleEvent] rejects with "Event not found" when the
    repository has no such event, passes on the error of either
    collaborator unchanged, and otherwise returns what [updateEvent]
    answers for the event with its start and end replaced and every other
    field kept. *)
Theorem rescheduleEvent_outcomes (Updated : Type)
  (getEvent : string -> string -> promise (option Event))
  (updateEvent : Event -> promise Updated)
  (userId eventId : string) (newStartTime newEndTime : Z) :
  let result :=
    rescheduleEvent Updated getEvent updateEvent userId eventId
      newStartTime newEndTime in
  (getEvent userId eventId = inr None -> result = inl "Event not found")
  /\ (forall error, getEvent userId eventId = inl error -> result = inl error)
  /\ (forall event,
        getEvent userId eventId = inr (Some event) ->
        exists updatedEvent,
          result = updateEvent updatedEvent
          /\ start updatedEvent = newStartTime
          /\ end_ updatedEvent = newEndTime
          /\ id updatedEvent = id event
          /\ title updatedEvent = title event
          /\ description updatedEvent = description event
          /\ location updatedEvent = location event
          /\ allDay updatedEvent = allDay event
          /\ categories updatedEvent = categories event).
Proof.
  cbn zeta. unfold rescheduleEvent. repeat split.
  - intros H. now rewrite H.
  - intros error H. now rewrite H.
  - intros event H. rewrite H. exists (withTimes event newStartTime newEndTime).
    cbn [bind Monad_either catch Exception_either].
    destruct (updateEvent _); repeat split; reflexivity.
Qed.

(** ** Signing in *)

Lemma truthyText_Some (field : option string) (text : string) :
  truthyText field = Some text <-> field = Some text /\ text <> "".
Proof.
  destruct field as [[|c rest]|]; simpl; split;
    try discriminate; try (intros [H _]; discriminate).
  - intros [[= <-] H]. contradiction.
  - intros [= <-]. split; [reflexivity|discriminate].
  - intros [[= <-] _]. reflexivity.
Qed.

Section SignInFacts.

Variable kvGet : string -> promise (option string).
Variable kvHgetall : string -> promise (option User).
Variable bcryptCompare : string -> option string -> promise bool.

(** X19.  [getUserByEmail] finds a user exactly when the key of the email
    holds a non-empty id and the key of that id holds a user; the user
    returned carries that id, whatever id is stored with the user. *)
Theorem getUserByEmail_found (email : string) (user : User) :
  getUserByEmail kvGet kvHgetall email = inr (Some user)
  <-> exists userId stored,
        kvGet ("email:" ++ email)%string = inr (Some userId)
        /\ userId <> ""
        /\ kvHgetall ("user:" ++ userId)%string = inr (Some stored)
        /\ user = {| userId_ := userId;
                     userName := userName stored;
                     userEmail := userEmail stored;
                     userImage := userImage stored;
                     userPassword := userPassword stored |}.
Proof.
  unfold getUserByEmail. split.
  - destruct (kvGet _) as [error|userId]; [discriminate|].
    cbn [bind Monad_either].
    destruct (truthyText userId) as [uid|] eqn:Hid; [|discriminate].
    apply truthyText_Some in Hid. destruct Hid as [-> Hne].
    destruct (kvHgetall _) as [error|[stored|]] eqn:Hh; try discriminate.
    intros [= <-]. exists uid, stored. auto.
  - intros (uid & stored & Hget & Hne & Hh & ->). rewrite Hget.
    cbn [bind Monad_either].
    rewrite (proj2 (truthyText_Some (Some uid) uid) (conj eq_refl Hne)).
    now rewrite Hh.
Qed.

(** X20.  [authorize] yields a session user exactly when an email and a
    password are both given and not empty, the email belongs to a stored
    user, and [bcrypt.compare] accepts the password against the stored
    hash; the session user is that user's id, name and email. *)
Theorem authorize_accepts (credentials : option Credentials)
  (session : SessionUser) :
  authorize kvGet kvHgetall bcryptCompare credentials = inr (Some session)
  <-> exists given email password user,
        credentials = Some given
        /\ credEmail given = Some email /\ email <> ""
        /\ credPassword given = Some password /\ password <> ""
        /\ getUserByEmail kvGet kvHgetall email = inr (Some user)
        /\ bcryptCompare password (userPassword user) = inr true
        /\ session = {| sessionId := userId_ user;
                        sessionName := userName user;
                        sessionEmail := userEmail user |}.
Proof.
  unfold authorize. split.
  - destruct credentials as [given|]; [|discriminate].
    destruct (truthyText (credEmail given)) as [email|] eqn:He;
      [|discriminate].
    destruct (truthyText (credPassword given)) as [password|] eqn:Hp;
      [|discriminate].
    apply truthyText_Some in He, Hp.
    destruct He as [He He'], Hp as [Hp Hp'].
    destruct (getUserByEmail kvGet kvHgetall email) as [error|[user|]] eqn:Hu;
      try discriminate.
    cbn [bind Monad_either].
    destruct (bcryptCompare password (userPassword user)) as [error|[|]] eqn:Hc;
      try discriminate.
    intros [= <-]. exists given, email, password, user. auto 10.
  - intros (given & email & password & user
            & -> & He & He' & Hp & Hp' & Hu & Hc & ->).
    rewrite (proj2 (truthyText_Some _ _) (conj He He')).
    rewrite (proj2 (truthyText_Some _ _) (conj Hp Hp')).
    rewrite Hu. cbn [bind Monad_either]. now rewrite Hc.
Qed.

End SignInFacts.

(** ** Further concrete inputs *)

Lemma exactlySummed_by_evaluation (events : list Event) :
  forallb (fun e => allDay e || ((end_ e - start e) mod (1000 * 60) =? 0))
    events = true ->
  fold_right (fun e total => Z.abs (countedMinutes e) + total) 0 events
  <= 2 ^ 53 ->
  exactlySummed events.
Proof.
  intros Hwhole Hsum. split; [|exact Hsum].
  apply Forall_forall. intros e He Hcounted.
  rewrite forallb_forall in Hwhole. specialize (Hwhole e He).
  rewrite Hcounted in Hwhole. now apply Z.eqb_eq in Hwhole.
Qed.

Lemma getCalendarAnalytics_totals_witness :
  exactlySummed [workHour; holiday; halfHour]
  /\ exists report,
       getCalendarAnalytics 0 (snapshot [workHour; holiday; halfHour]) "user"
         jan15 jan16 = inr report
       /\ meetingCount report
          = Z.of_nat (List.length (filter (fun e => negb (allDay e))
                                     [workHour; holiday; halfHour]))
       /\ (exactlySummed [workHour; holiday; halfHour] ->
           (totalMeetingMinutes report
            == inject_Z (wholeMeetingMinutes [workHour; holiday; halfHour]))%Q
           /\ (sumValues (dailyMeetingMinutes report)
               == totalMeetingMinutes report)%Q).
Proof.
  split.
  - apply exactlySummed_by_evaluation; vm_compute;
      [reflexivity|discriminate].
  - apply (getCalendarAnalytics_totals 0
             (snapshot [workHour; holiday; halfHour]) "user" jan15 jan16
             [workHour; holiday; halfHour]).
    reflexivity.
Defined.

Lemma getCalendarAnalytics_daily_buckets_witness :
  exactlySummed [workHour; teamSync]
  /\ exists report,
       getCalendarAnalytics 0 (snapshot [workHour; teamSync]) "user"
         jan15 jan16 = inr report
       /\ NoDup (map fst (dailyMeetingMinutes report))
       /\ forall key,
            match lookup key (dailyMeetingMinutes report) with
            | Some minutes =>
                meetingsOn 0 key [workHour; teamSync] <> []
                /\ (exactlySummed [workHour; teamSync] ->
                    (minutes == minutesOn 0 key [workHour; teamSync])%Q)
            | None => meetingsOn 0 key [workHour; teamSync] = []
            end.
Proof.
  split.
  - apply exactlySummed_by_evaluation; vm_compute;
      [reflexivity|discriminate].
  - apply (getCalendarAnalytics_daily_buckets 0
             (snapshot [workHour; teamSync]) "user" jan15 jan16
             [workHour; teamSync]).
    reflexivity.
Defined.

Lemma getCalendarAnalytics_category_counts_witness :
  exists report,
    getCalendarAnalytics 0 (snapshot [workHour; teamSync; halfHour]) "user"
      jan15 jan16 = inr report
    /\ NoDup (map fst (categoryCounts report))
    /\ Forall (fun entry => plainLabel (fst entry)) (categoryCounts report)
    /\ forall label,
         lookup label (categoryCounts report)
         = (let n := count_occ string_dec
                       (flat_map labelsOf [workHour; teamSync; halfHour])
                       label in
            if (n =? 0)%nat then None else Some (Z.of_nat n)).
Proof.
  apply (getCalendarAnalytics_category_counts 0
           (snapshot [workHour; teamSync; halfHour]) "user" jan15 jan16
           [workHour; teamSync; halfHour]);
    [reflexivity|each_by_evaluation].
Defined.

Lemma getCalendarAnalytics_busiest_day_witness :
  exists report,
    getCalendarAnalytics 0 (snapshot [workHour; halfHour]) "user"
      jan15 jan16 = inr report
    /\ ((busiestDay report = "" /\ busiestDayMinutes report = 0%Q
         /\ Forall (fun entry => snd entry <= 0)%Q (dailyMeetingMinutes report))
        \/ exists earlier later,
             dailyMeetingMinutes report
             = earlier ++ (busiestDay report, busiestDayMinutes report)
                 :: later
             /\ (0 < busiestDayMinutes report)%Q
             /\ Forall (fun entry => snd entry < busiestDayMinutes report)%Q
                  earlier
             /\ Forall (fun entry => snd entry <= busiestDayMinutes report)%Q
                  later).
Proof.
  apply (getCalendarAnalytics_busiest_day 0
           (snapshot [workHour; halfHour]) "user" jan15 jan16
           [workHour; halfHour]).
  reflexivity.
Defined.

Lemma getCalendarAnalytics_finite_witness :
  jan15 < jan16
  /\ exists report,
       getCalendarAnalytics 0 (snapshot [workHour; halfHour]) "user"
         jan15 jan16 = inr report
       /\ finite (totalMeetingHours report)
       /\ finite (averageMeetingLength report)
       /\ finite (busiestDayHours report)
       /\ (jan15 < jan16 ->
           finite (averageDailyMeetingMinutes report)
           /\ finite (averageDailyMeetingHours report)).
Proof.
  split; [reflexivity|].
  apply (getCalendarAnalytics_finite 0
           (snapshot [workHour; halfHour]) "user" jan15 jan16
           [workHour; halfHour]).
  reflexivity.
Defined.


Lemma eveningEvent_outside :
  outsideEveryWindow 0 (at_ jan15 8 0) (at_ jan15 23 0) eveningEvent.
Proof.
  intros d ws we [<-|[]] Hw. vm_compute in Hw. injection Hw as <- <-.
  reflexivity.
Qed.


Lemma daySlots_covered_witness :
  daySlots 0 jan15 (at_ jan15 23 0) (ofZ 30)
    (sortByStart [bookedDay; eveningEvent]) jan15 = [].
Proof.
  apply (daySlots_covered 0 jan15 (at_ jan15 23 0) (ofZ 30)
           [bookedDay; eveningEvent] jan15 (at_ jan15 9 0) (at_ jan15 17 0)
           bookedDay);
    [reflexivity|reflexivity|vm_compute; discriminate
    |vm_compute; discriminate|vm_compute; reflexivity].
Defined.

Lemma findFreeTimeSlots_rollup_witness :
  exists result,
    findFreeTimeSlots 0 (snapshot [workHour; halfHour]) "user"
      jan15 (at_ jan16 23 0) (Fin (61 # 2)) = inr result
    /\ (forall q,
          Fin (61 # 2) = Fin q ->
          Qfloor q * totalFreeSlots result
          <= totalFreeDurationMinutes result
          /\ forall minutes,
               (q == inject_Z minutes)%Q ->
               minutes * totalFreeSlots result
               <= totalFreeDurationMinutes result)
    /\ (atLeastZero (Fin (61 # 2)) ->
        0 <= totalFreeDurationMinutes result).
Proof.
  apply (findFreeTimeSlots_rollup 0 (snapshot [workHour; halfHour]) "user"
           jan15 (at_ jan16 23 0) (Fin (61 # 2)) [workHour; halfHour]).
  reflexivity.
Defined.

Lemma findFreeTimeSlots_day_by_day_witness :
  let days := Z.to_nat (dayNumber 0 (at_ jan16 23 0) - dayNumber 0 jan15 + 1) in
  scanDays 0 (S days) jan15 (at_ jan16 23 0) (ofZ 30)
    (sortByStart [workHour; halfHour]) (endOfDay 0 (at_ jan16 23 0))
    (startOfDay 0 jan15) []
  = Some (flat_map
            (fun k =>
               daySlots 0 jan15 (at_ jan16 23 0) (ofZ 30)
                 (sortByStart [workHour; halfHour])
                 (addDays (startOfDay 0 jan15) (Z.of_nat k)))
            (seq 0 days))
  /\ exists result,
       findFreeTimeSlots 0 (snapshot [workHour; halfHour]) "user"
         jan15 (at_ jan16 23 0) (ofZ 30) = inr result
       /\ freeSlots result
          = flat_map
              (fun k =>
                 daySlots 0 jan15 (at_ jan16 23 0) (ofZ 30)
                   (sortByStart [workHour; halfHour])
                   (addDays (startOfDay 0 jan15) (Z.of_nat k)))
              (seq 0 days).
Proof.
  apply (findFreeTimeSlots_day_by_day 0 (snapshot [workHour; halfHour])
           "user" jan15 (at_ jan16 23 0) (ofZ 30) [workHour; halfHour]).
  reflexivity.
Defined.

Lemma findFreeTimeSlots_reversed_days_witness :
  findFreeTimeSlots 0 (snapshot [workHour]) "user"
    (at_ jan16 10 0) (at_ jan15 10 0) (ofZ 30)
  = inr {| freeSlots := [];
           totalFreeSlots := 0;
           totalFreeDurationMinutes := 0 |}.
Proof.
  apply (findFreeTimeSlots_reversed_days 0 (snapshot [workHour]) "user"
           (at_ jan16 10 0) (at_ jan15 10 0) (ofZ 30) [workHour]);
    [reflexivity|vm_compute; reflexivity].
Defined.

Lemma findFreeTimeSlots_ignores_outside_witness :
  exists result,
    findFreeTimeSlots 0 (snapshot [longMeeting; shortMeeting]) "user"
      (at_ jan15 8 0) (at_ jan15 23 0) (ofZ 30) = inr result
    /\ findFreeTimeSlots 0
         (snapshot [longMeeting; eveningEvent; shortMeeting]) "user"
         (at_ jan15 8 0) (at_ jan15 23 0) (ofZ 30) = inr result.
Proof.
  apply (findFreeTimeSlots_ignores_outside 0
           (snapshot [longMeeting; shortMeeting])
           (snapshot [longMeeting; eveningEvent; shortMeeting]) "user"
           (at_ jan15 8 0) (at_ jan15 23 0) (ofZ 30)
           [longMeeting] [shortMeeting] eveningEvent);
    [exact eveningEvent_outside|reflexivity|reflexivity].
Defined.

Lemma suggestRescheduling_not_found_witness :
  (forall e, In e [standup; longMeeting] -> id e <> "retro")
  <-> suggestRescheduling 0 (snapshot [standup; longMeeting]) (at_ jan15 8 0)
        "user" "retro"
      = inr (NotFound "Event not found").
Proof.
  apply (suggestRescheduling_not_found 0 (snapshot [standup; longMeeting])
           (at_ jan15 8 0) "user" "retro" [standup; longMeeting]).
  reflexivity.
Defined.

Lemma suggestRescheduling_fits_witness :
  exists summary alternativeSlots,
    suggestRescheduling 0 (snapshot [standup; longMeeting]) (at_ jan15 8 0)
      "user" "long"
    = inr (Alternatives summary alternativeSlots)
    /\ summaryId summary = "long"
    /\ summaryDuration summary
       = (end_ longMeeting - start longMeeting) / (1000 * 60)
    /\ Forall (fun slot =>
                 summaryDuration summary <= duration slot
                 /\ (Forall wellFormed [standup; longMeeting] ->
                     at_ jan15 8 0 <= slotStart slot
                     /\ slotEnd slot <= addDays (at_ jan15 8 0) 14))
         alternativeSlots.
Proof.
  apply (suggestRescheduling_fits 0 (snapshot [standup; longMeeting])
           (at_ jan15 8 0) "user" "long" [standup; longMeeting]);
    reflexivity.
Defined.

Lemma findEvents_matches_witness :
  isAscii "SYNC" = true
  /\ Forall asciiEvent [teamSync; standup]
  /\ exists found,
       findEvents (snapshot [teamSync; standup]) jan15 "user" "SYNC"
       = inr found
       /\ (exists test, found = filter test [teamSync; standup])
       /\ (isAscii "SYNC" = true ->
           Forall asciiEvent [teamSync; standup] ->
           forall event,
             In event found
             <-> In event [teamSync; standup] /\ mentions "SYNC" event).
Proof.
  split; [reflexivity|].
  split; [repeat constructor|].
  apply (findEvents_matches (snapshot [teamSync; standup]) jan15 "user"
           "SYNC" [teamSync; standup]).
  reflexivity.
Defined.

Lemma findEvents_empty_query_witness :
  findEvents (snapshot [teamSync; standup]) jan15 "user" ""
  = inr (filter (fun event =>
                   match title event, description event, location event with
                   | None, None, None => false
                   | _, _, _ => true
                   end) [teamSync; standup]).
Proof.
  apply (findEvents_empty_query (snapshot [teamSync; standup]) jan15 "user"
           [teamSync; standup]).
  reflexivity.
Defined.

Lemma same_day_same_key_witness :
  formatDateKey 0 (at_ jan15 9 0) = formatDateKey 0 (at_ jan15 23 30).
Proof.
  apply (same_day_same_key 0 (at_ jan15 9 0) (at_ jan15 23 30)).
  vm_compute. reflexivity.
Defined.

Lemma rescheduleEvent_outcomes_witness :
  rescheduleEvent Event sampleGetEvent sampleUpdate "user" "retro"
    (at_ jan16 9 0) (at_ jan16 9 30)
  = inl "Event not found"
  /\ exists updatedEvent,
       rescheduleEvent Event sampleGetEvent sampleUpdate "user" "standup"
         (at_ jan16 9 0) (at_ jan16 9 30)
       = sampleUpdate updatedEvent
       /\ start updatedEvent = at_ jan16 9 0
       /\ end_ updatedEvent = at_ jan16 9 30
       /\ id updatedEvent = id standup.
Proof.
  split.
  - apply (proj1 (rescheduleEvent_outcomes Event sampleGetEvent sampleUpdate
                    "user" "retro" (at_ jan16 9 0) (at_ jan16 9 30))).
    reflexivity.
  - destruct (proj2 (proj2 (rescheduleEvent_outcomes Event sampleGetEvent
                              sampleUpdate "user" "standup"
                              (at_ jan16 9 0) (at_ jan16 9 30)))
                standup eq_refl)
      as (updatedEvent & Hresult & Hstart & Hend & Hid & _).
    exists updatedEvent. auto.
Defined.

Lemma getUserByEmail_found_witness :
  getUserByEmail sampleGet sampleHgetall "ada@example.com"
  = inr (Some (mkUser "user_1" (Some "Ada") (Some "ada@example.com") None
                 (Some "hash"))).
Proof.
  apply (getUserByEmail_found sampleGet sampleHgetall "ada@example.com").
  exists "user_1", ada.
  repeat split; [discriminate].
Defined.

Lemma authorize_accepts_witness :
  authorize sampleGet sampleHgetall sampleCompare
    (Some (mkCredentials (Some "ada@example.com") (Some "secret")))
  = inr (Some (mkSessionUser "user_1" (Some "Ada") (Some "ada@example.com"))).
Proof.
  apply (authorize_accepts sampleGet sampleHgetall sampleCompare).
  exists (mkCredentials (Some "ada@example.com") (Some "secret")),
    "ada@example.com", "secret",
    (mkUser "user_1" (Some "Ada") (Some "ada@example.com") None (Some "hash")).
  repeat split; discriminate.
Defined.
